(** * Phone number parsing (src/lib/phoneNumber.ts)

    A shallow embedding of the parser and the properties its specification
    states about it.

    JavaScript strings are modelled as [string]: sequences of 8-bit code
    units.  The first thing [parsePhoneNumber] does is to delete every
    character other than [0-9], [+], [x] and [X], so a character outside
    that set behaves like any other deleted character.

    The parser is recursive: [parseNumberWithExtension] calls back into
    [parsePhoneNumber].  The recursion is not structural, so the embedding
    carries the remaining call depth as a [nat]; [None] means that the depth
    budget ran out before the call returned. *)

From Stdlib Require Import String Ascii List Arith Bool Lia.
Import ListNotations.
Open Scope string_scope.
Open Scope bool_scope.
Open Scope nat_scope.

(** ** String primitives of the host language *)

Module Js.

(** [\d]: an ASCII digit. *)
Definition isDigit (c : ascii) : bool :=
  (48 <=? nat_of_ascii c) && (nat_of_ascii c <=? 57).

(** [s.replace(/[^...]/g, '')]: keep the characters the class accepts. *)
Fixpoint keep (p : ascii -> bool) (s : string) : string :=
  match s with
  | EmptyString => EmptyString
  | String c rest => if p c then String c (keep p rest) else keep p rest
  end.

(** [s.replace(/\D/g, '')]. *)
Definition digitsOnly (s : string) : string := keep isDigit s.

(** Lower-casing of one code unit: [A-Z], and the Latin-1 capitals
    [U+00C0 .. U+00DE] without the multiplication sign [U+00D7]. *)
Definition lowerChar (c : ascii) : ascii :=
  let n := nat_of_ascii c in
  if (65 <=? n) && (n <=? 90) then ascii_of_nat (n + 32)
  else if (192 <=? n) && (n <=? 222) && negb (n =? 215)
       then ascii_of_nat (n + 32)
  else c.

(** [s.toLowerCase()]. *)
Fixpoint toLowerCase (s : string) : string :=
  match s with
  | EmptyString => EmptyString
  | String c rest => String (lowerChar c) (toLowerCase rest)
  end.

(** [s.startsWith(c)] for a one-character needle. *)
Definition startsWith (c : ascii) (s : string) : bool :=
  match s with
  | EmptyString => false
  | String d _ => Ascii.eqb d c
  end.

(** [s.includes(c)] for a one-character needle. *)
Fixpoint includes (c : ascii) (s : string) : bool :=
  match s with
  | EmptyString => false
  | String d rest => Ascii.eqb d c || includes c rest
  end.

(** [s.slice(n)] for [0 <= n]. *)
Fixpoint sliceFrom (n : nat) (s : string) : string :=
  match n, s with
  | 0, _ => s
  | S _, EmptyString => EmptyString
  | S n', String _ rest => sliceFrom n' rest
  end.

(** The first [n] characters of [s], or all of [s] when it is shorter. *)
Fixpoint firstChars (n : nat) (s : string) : string :=
  match n, s with
  | 0, _ => EmptyString
  | S _, EmptyString => EmptyString
  | S n', String c rest => String c (firstChars n' rest)
  end.

(** [s.slice(b, e)] for [0 <= b] and [0 <= e]; both ends are clamped to
    the length of [s], and the result is empty when [e <= b]. *)
Definition slice (b e : nat) (s : string) : string :=
  firstChars (e - b) (sliceFrom b s).

(** [s.split(c)] for a one-character separator: the pieces between the
    occurrences of [c].  The result is never empty. *)
Fixpoint split (c : ascii) (s : string) : list string :=
  match s with
  | EmptyString => [EmptyString]
  | String d rest =>
      if Ascii.eqb d c then EmptyString :: split c rest
      else match split c rest with
           | [] => [String d EmptyString]
           | piece :: pieces => String d piece :: pieces
           end
  end.

(** Truthiness of a string: [!s] holds for the empty string. *)
Definition isEmpty (s : string) : bool :=
  match s with
  | EmptyString => true
  | String _ _ => false
  end.

End Js.

(** ** The data model *)

Record PhoneNumber : Set := mkPhoneNumber {
  countryCode    : string;
  nationalNumber : string;
  extension      : option string;
  formatted      : string
}.

Inductive PhoneNumberParseResult : Set :=
| Success (phoneNumber : PhoneNumber)
| Failure (error : string).

(** ** The parser *)

(** The character class of [/[^\d+x+]/gi]: the characters the cleaning step
    retains.  Under the [i] flag [x] stands for both [x] and [X]. *)
Definition cleanedChar (c : ascii) : bool :=
  Js.isDigit c || Ascii.eqb c "+" || Ascii.eqb c "x" || Ascii.eqb c "X".

(** The loop of [formatInternationalNumber]:
    [for (let i = 0; i < nationalNumber.length; i += 4) chunks.push(...)].
    [steps] bounds the number of iterations. *)
Fixpoint chunkLoop (steps i : nat) (nationalNumber : string) : list string :=
  match steps with
  | 0 => []
  | S steps' =>
      if i <? String.length nationalNumber
      then Js.slice i (i + 4) nationalNumber
             :: chunkLoop steps' (i + 4) nationalNumber
      else []
  end.

Definition formatInternationalNumber (countryCode nationalNumber : string)
  : string :=
  if String.length nationalNumber <=? 10
  then "+" ++ countryCode ++ " " ++ nationalNumber
  else
    let chunks := chunkLoop (String.length nationalNumber) 0 nationalNumber in
    "+" ++ countryCode ++ " " ++ String.concat " " chunks.

Definition parseInternationalNumber (input : string)
  : PhoneNumberParseResult :=
  let digits := Js.digitsOnly input in
  if (String.length digits <? 8) || (15 <? String.length digits)
  then Failure "International phone number must be 8-15 digits"
  else
    let countryCodeLength :=
      if Js.startsWith "1" digits then 1
      else if Js.startsWith "7" digits then 1
      else if Js.startsWith "8" digits then 1
      else if Js.startsWith "9" digits then 1
      else 2 in
    let countryCode := Js.slice 0 countryCodeLength digits in
    let nationalNumber := Js.sliceFrom countryCodeLength digits in
    if String.length nationalNumber <? 7
    then Failure "National number too short after country code"
    else Success
           {| countryCode := "+" ++ countryCode;
              nationalNumber := nationalNumber;
              extension := None;
              formatted :=
                formatInternationalNumber countryCode nationalNumber |}.

Definition parseUSNumber (input : string) : PhoneNumberParseResult :=
  let digits := Js.digitsOnly input in
  if negb (String.length digits =? 10)
  then Failure "US/Canada phone number must be exactly 10 digits"
  else
    let areaCode := Js.slice 0 3 digits in
    let exchangeCode := Js.slice 3 6 digits in
    let subscriberNumber := Js.sliceFrom 6 digits in
    if Js.startsWith "0" areaCode || Js.startsWith "1" areaCode
    then Failure "Invalid area code"
    else if Js.startsWith "0" exchangeCode || Js.startsWith "1" exchangeCode
    then Failure "Invalid exchange code"
    else Success
           {| countryCode := "+1";
              nationalNumber := digits;
              extension := None;
              formatted :=
                "(" ++ areaCode ++ ") " ++ exchangeCode
                    ++ "-" ++ subscriberNumber |}.

Section ExtensionPath.

(** The top-level entry point, as [parseNumberWithExtension] calls it. *)
Variable parsePhoneNumber_rec : string -> option PhoneNumberParseResult.

Definition parseNumberWithExtension (input : string)
  : option PhoneNumberParseResult :=
  let pieces := Js.split "x" (Js.toLowerCase input) in
  (* const [numberPart, extensionPart] = pieces: a missing element is
     [undefined], which the emptiness test below rejects as well *)
  match nth_error pieces 0, nth_error pieces 1 with
  | Some numberPart, Some extensionPart =>
      if Js.isEmpty extensionPart || Js.isEmpty numberPart
      then Some (Failure "Invalid extension format")
      else
        let digits := Js.digitsOnly numberPart in
        let extension := Js.digitsOnly extensionPart in
        if (String.length digits <? 7) || (15 <? String.length digits)
        then Some (Failure "Phone number must be 7-15 digits")
        else if (String.length extension =? 0)
                || (5 <? String.length extension)
        then Some (Failure "Extension must be 1-5 digits")
        else
          match parsePhoneNumber_rec numberPart with
          | None => None
          | Some (Failure error) => Some (Failure error)
          | Some (Success phoneNumber) =>
              Some (Success
                      {| countryCode := countryCode phoneNumber;
                         nationalNumber := nationalNumber phoneNumber;
                         extension := Some extension;
                         formatted :=
                           formatted phoneNumber
                             ++ " ext. " ++ extension |})
          end
  | _, _ => Some (Failure "Invalid extension format")
  end.

End ExtensionPath.

(** [parsePhoneNumber depth input]: the entry point, with [depth] nested
    calls of itself allowed (the outermost one included). *)
Fixpoint parsePhoneNumber (depth : nat) (input : string)
  : option PhoneNumberParseResult :=
  match depth with
  | 0 => None
  | S depth' =>
      let cleaned := Js.keep cleanedChar input in
      if Js.isEmpty cleaned || (String.length cleaned <? 7)
      then Some (Failure "Phone number must be at least 7 digits long")
      else if 15 <? String.length cleaned
      then Some (Failure "Phone number cannot exceed 15 digits")
      else if Js.startsWith "+" cleaned
      then Some (parseInternationalNumber cleaned)
      else if Js.includes "x" (Js.toLowerCase cleaned)
      then parseNumberWithExtension (parsePhoneNumber depth') cleaned
      else if String.length cleaned =? 10
      then Some (parseUSNumber cleaned)
      else if (String.length cleaned =? 11) && Js.startsWith "1" cleaned
      then Some (parseUSNumber (Js.sliceFrom 1 cleaned))
      else Some (Failure "Unable to parse phone number format")
  end.

Definition isValidPhoneNumber (depth : nat) (input : string) : option bool :=
  match parsePhoneNumber depth input with
  | None => None
  | Some (Success _) => Some true
  | Some (Failure _) => Some false
  end.

Definition getPhoneNumber (depth : nat) (input : string)
  : option (option PhoneNumber) :=
  match parsePhoneNumber depth input with
  | None => None
  | Some (Success phoneNumber) => Some (Some phoneNumber)
  | Some (Failure _) => Some None
  end.


(** ** Vocabulary of the specification *)

(** Every character of [s] satisfies [p]. *)
Fixpoint allChars (p : ascii -> bool) (s : string) : bool :=
  match s with
  | EmptyString => true
  | String c rest => p c && allChars p rest
  end.

(** The text of [s] before the first occurrence of [c]; all of [s] when
    [c] does not occur. *)
Fixpoint beforeFirst (c : ascii) (s : string) : string :=
  match s with
  | EmptyString => EmptyString
  | String d rest =>
      if Ascii.eqb d c then EmptyString else String d (beforeFirst c rest)
  end.

(** The text of [s] after the first occurrence of [c], when there is one. *)
Fixpoint afterFirst (c : ascii) (s : string) : option string :=
  match s with
  | EmptyString => None
  | String d rest => if Ascii.eqb d c then Some rest else afterFirst c rest
  end.

(** What [parseNumberWithExtension] makes of the result [main] of parsing
    the main number: a failure is handed on as it is, a success gets the
    extension and the suffix of its rendering. *)
Definition attachExtension (extension : string) (main : PhoneNumberParseResult)
  : PhoneNumberParseResult :=
  match main with
  | Failure error => Failure error
  | Success phoneNumber =>
      Success {| countryCode := countryCode phoneNumber;
                 nationalNumber := nationalNumber phoneNumber;
                 extension := Some extension;
                 formatted :=
                   formatted phoneNumber ++ " ext. " ++ extension |}
  end.

(** The invariants of a success payload. *)
Definition wellFormed (p : PhoneNumber) : Prop :=
  allChars Js.isDigit (nationalNumber p) = true
  /\ countryCode p <> EmptyString
  /\ Js.startsWith "+" (countryCode p) = true
  /\ forall e, extension p = Some e ->
       allChars Js.isDigit e = true
       /\ 1 <= String.length e <= 5.

(** The ten characters [d1 .. d10] as a string. *)
Definition tenChars (d1 d2 d3 d4 d5 d6 d7 d8 d9 d10 : ascii) : string :=
  string_of_list_ascii [d1; d2; d3; d4; d5; d6; d7; d8; d9; d10].

(** The length of the country code as the specification words it: one
    digit when the first digit is 1, 7, 8 or 9, and two digits otherwise. *)
Definition countryCodeLengthOf (digits : string) : nat :=
  match digits with
  | String c _ =>
      if existsb (Ascii.eqb c) ["1"; "7"; "8"; "9"]%char then 1 else 2
  | EmptyString => 2
  end.

(** The claim about international numbers as the specification has it,
    for every input whose cleaned string starts with [+]: the country code
    and the national number are cut out of the digits of the input, and the
    outcome depends on the number of digits alone. *)
Definition internationalClaim_as_stated (depth : nat) (input : string)
  : Prop :=
  let cleaned := Js.keep cleanedChar input in
  Js.startsWith "+" cleaned = true ->
  let digits := Js.digitsOnly input in
  let countryCode := Js.firstChars (countryCodeLengthOf digits) digits in
  let nationalNumber := Js.sliceFrom (countryCodeLengthOf digits) digits in
  (8 <= String.length digits <= 15 ->
   (String.length nationalNumber < 7 ->
    parsePhoneNumber (S depth) input =
    Some (Failure "National number too short after country code"))
   /\ (7 <= String.length nationalNumber ->
       parsePhoneNumber (S depth) input =
       Some (Success
               {| countryCode := "+" ++ countryCode;
                  nationalNumber := nationalNumber;
                  extension := None;
                  formatted :=
                    formatInternationalNumber countryCode nationalNumber |})))
  /\ (~ 8 <= String.length digits <= 15 ->
      parsePhoneNumber (S depth) input =
      Some (Failure "International phone number must be 8-15 digits")).

(** The claim about the extension path as the specification has it: the
    extension part is all the text after the first [x], later [x]
    characters included. *)
Definition extensionSplitClaim_as_stated (depth : nat) (input : string)
  : Prop :=
  let cleaned := Js.keep cleanedChar input in
  7 <= String.length cleaned <= 15 ->
  Js.startsWith "+" cleaned = false ->
  Js.includes "x" (Js.toLowerCase cleaned) = true ->
  exists extensionPart,
    afterFirst "x" (Js.toLowerCase cleaned) = Some extensionPart
    /\ let numberPart := beforeFirst "x" (Js.toLowerCase cleaned) in
       (numberPart = EmptyString \/ extensionPart = EmptyString ->
        parsePhoneNumber (2 + depth) input =
        Some (Failure "Invalid extension format"))
       /\ (numberPart <> EmptyString -> extensionPart <> EmptyString ->
           forall p,
             parsePhoneNumber (2 + depth) input = Some (Success p) ->
             extension p = Some (Js.digitsOnly extensionPart)).

(** The messages a failure can carry. *)
Definition errorMessages : list string :=
  [ "Phone number must be at least 7 digits long";
    "Phone number cannot exceed 15 digits";
    "Unable to parse phone number format";
    "International phone number must be 8-15 digits";
    "National number too short after country code";
    "Invalid extension format";
    "Phone number must be 7-15 digits";
    "Extension must be 1-5 digits";
    "US/Canada phone number must be exactly 10 digits";
    "Invalid area code";
    "Invalid exchange code" ].

(** ** Proof steps that recur *)

(** Settle a statement about one character by running through all 256. *)
Ltac by_cases_on_char c :=
  destruct c as [[] [] [] [] [] [] [] []]; vm_compute;
  repeat split; intros; try discriminate; try congruence; auto.

(** Split on the first conditional in sight. *)
Ltac case_if :=
  match goal with
  | |- context [if ?b then _ else _] => destruct b eqn:?
  | H : context [if ?b then _ else _] |- _ => destruct b eqn:?
  end.

(** Name the payload of a success without computing inside it. *)
Ltac payload H :=
  match type of H with
  | Success ?q = Success ?p =>
      let Hp := fresh in
      assert (Hp : p = q) by congruence; clear H; subst p
  | Some (Success ?q) = Some (Success ?p) =>
      let Hp := fresh in
      assert (Hp : p = q) by congruence; clear H; subst p
  end.

(** Find a message in the list of messages. *)
Ltac in_messages :=
  unfold errorMessages;
  repeat first [ left; reflexivity | right ].

(** ** Facts about characters

    Each is a statement about one 8-bit character, settled by running
    through the 256 of them. *)

Lemma digit_is_cleaned c : Js.isDigit c = true -> cleanedChar c = true.
Proof. by_cases_on_char c. Qed.

Lemma digit_not_plus c : Js.isDigit c = true -> Ascii.eqb c "+" = false.
Proof. by_cases_on_char c. Qed.

Lemma digit_lower c : Js.isDigit c = true -> Js.lowerChar c = c.
Proof. by_cases_on_char c. Qed.

Lemma digit_not_x c : Js.isDigit c = true -> Ascii.eqb c "x" = false.
Proof. by_cases_on_char c. Qed.

Lemma lower_plus c :
  Ascii.eqb (Js.lowerChar c) "+" = Ascii.eqb c "+".
Proof. by_cases_on_char c. Qed.

Lemma lower_idempotent c : Js.lowerChar (Js.lowerChar c) = Js.lowerChar c.
Proof. by_cases_on_char c. Qed.

Lemma lower_cleaned c :
  cleanedChar c = true -> cleanedChar (Js.lowerChar c) = true.
Proof. by_cases_on_char c. Qed.

Lemma plus_not_digit c : Ascii.eqb c "+" = true -> Js.isDigit c = false.
Proof. by_cases_on_char c. Qed.

(** ** Facts about the string primitives *)

Lemma allChars_weaken (p q : ascii -> bool) s :
  (forall c, p c = true -> q c = true) ->
  allChars p s = true -> allChars q s = true.
Proof.
  intros Hpq; induction s as [|c s IH]; simpl; auto.
  rewrite !andb_true_iff; intros [Hc Hs]; auto.
Qed.

Lemma allChars_both (p q : ascii -> bool) s :
  allChars p s = true -> allChars q s = true ->
  allChars (fun c => p c && q c) s = true.
Proof.
  induction s as [|c s IH]; simpl; auto.
  rewrite !andb_true_iff; intros [Hc Hs] [Hc' Hs']; auto.
Qed.

Lemma keep_length p s : String.length (Js.keep p s) <= String.length s.
Proof.
  induction s as [|c s IH]; simpl; auto.
  destruct (p c); simpl; lia.
Qed.

Lemma keep_allChars p s : allChars p (Js.keep p s) = true.
Proof.
  induction s as [|c s IH]; simpl; auto.
  destruct (p c) eqn:Hc; simpl; auto. now rewrite Hc.
Qed.

Lemma keep_same p s : allChars p s = true -> Js.keep p s = s.
Proof.
  induction s as [|c s IH]; simpl; auto.
  rewrite andb_true_iff; intros [Hc Hs]. rewrite Hc, IH; auto.
Qed.

Lemma keep_preserves (p q : ascii -> bool) s :
  allChars q s = true -> allChars q (Js.keep p s) = true.
Proof.
  induction s as [|c s IH]; simpl; auto.
  rewrite andb_true_iff; intros [Hc Hs].
  destruct (p c); simpl; auto. rewrite Hc; auto.
Qed.

Lemma keep_length_same p s :
  String.length (Js.keep p s) = String.length s -> Js.keep p s = s.
Proof.
  induction s as [|c s IH]; simpl; auto.
  destruct (p c); simpl; intros H.
  - f_equal. apply IH. lia.
  - pose proof (keep_length p s). lia.
Qed.

(** Deleting the non-digits of a cleaned string deletes the non-digits of
    the string it was cleaned from. *)
Lemma digitsOnly_cleaned s :
  Js.digitsOnly (Js.keep cleanedChar s) = Js.digitsOnly s.
Proof.
  unfold Js.digitsOnly. induction s as [|c s IH]; simpl; auto.
  destruct (cleanedChar c) eqn:Hc; simpl.
  - now rewrite IH.
  - destruct (Js.isDigit c) eqn:Hd; auto.
    apply digit_is_cleaned in Hd. congruence.
Qed.

Lemma toLowerCase_length s :
  String.length (Js.toLowerCase s) = String.length s.
Proof. induction s as [|c s IH]; simpl; auto. Qed.

Lemma toLowerCase_fixed s :
  allChars (fun c => Ascii.eqb (Js.lowerChar c) c) (Js.toLowerCase s) = true.
Proof.
  induction s as [|c s IH]; simpl; auto.
  rewrite lower_idempotent, Ascii.eqb_refl. auto.
Qed.

Lemma toLowerCase_same s :
  allChars (fun c => Ascii.eqb (Js.lowerChar c) c) s = true ->
  Js.toLowerCase s = s.
Proof.
  induction s as [|c s IH]; simpl; auto.
  rewrite andb_true_iff, Ascii.eqb_eq; intros [Hc Hs].
  rewrite Hc, IH; auto.
Qed.

Lemma toLowerCase_cleaned s :
  allChars cleanedChar s = true ->
  allChars cleanedChar (Js.toLowerCase s) = true.
Proof.
  induction s as [|c s IH]; simpl; auto.
  rewrite !andb_true_iff; intros [Hc Hs]; auto using lower_cleaned.
Qed.

Lemma toLowerCase_startsWith_plus s :
  Js.startsWith "+" (Js.toLowerCase s) = Js.startsWith "+" s.
Proof. destruct s; simpl; auto using lower_plus. Qed.

Lemma includes_false c s :
  Js.includes c s = false <->
  allChars (fun d => negb (Ascii.eqb d c)) s = true.
Proof.
  induction s as [|d s IH]; simpl; [tauto|].
  rewrite orb_false_iff, andb_true_iff, negb_true_iff. tauto.
Qed.

Lemma sliceFrom_allChars p n s :
  allChars p s = true -> allChars p (Js.sliceFrom n s) = true.
Proof.
  revert s; induction n as [|n IH]; intros [|c s]; simpl; auto.
  rewrite andb_true_iff; intros [_ Hs]; auto.
Qed.

Lemma sliceFrom_length n s :
  String.length (Js.sliceFrom n s) = String.length s - n.
Proof.
  revert s; induction n as [|n IH]; intros [|c s]; simpl; auto.
Qed.

(** Strings of digits pass through cleaning and lower-casing unchanged. *)
Section DigitStrings.

Variable s : string.
Hypothesis Hdigits : allChars Js.isDigit s = true.

Lemma digits_cleaned : Js.keep cleanedChar s = s.
Proof.
  apply keep_same.
  revert Hdigits; apply allChars_weaken, digit_is_cleaned.
Qed.

Lemma digits_digitsOnly : Js.digitsOnly s = s.
Proof. now apply keep_same. Qed.

Lemma digits_lower : Js.toLowerCase s = s.
Proof.
  apply toLowerCase_same. revert Hdigits; apply allChars_weaken.
  intros c Hc. rewrite (digit_lower c Hc). apply Ascii.eqb_refl.
Qed.

Lemma digits_no_plus : Js.startsWith "+" s = false.
Proof.
  destruct s as [|c r]; simpl in *; auto.
  apply andb_true_iff in Hdigits. now apply digit_not_plus.
Qed.

Lemma digits_no_x : Js.includes "x" s = false.
Proof.
  apply includes_false. revert Hdigits; apply allChars_weaken.
  intros c Hc. now rewrite (digit_not_x c Hc).
Qed.

End DigitStrings.

Lemma lower_is_x c :
  Ascii.eqb (Js.lowerChar c) "x" = Ascii.eqb c "x" || Ascii.eqb c "X".
Proof. by_cases_on_char c. Qed.

(** Looking for [x] in the lower-cased string is looking for [x] or [X]. *)
Lemma includes_x_lower s :
  Js.includes "x" (Js.toLowerCase s) =
  Js.includes "x" s || Js.includes "X" s.
Proof.
  induction s as [|c s IH]; simpl; auto.
  rewrite IH, lower_is_x.
  destruct (Ascii.eqb c "x"), (Ascii.eqb c "X"),
    (Js.includes "x" s), (Js.includes "X" s); reflexivity.
Qed.

(** Deleting characters shortens a string that holds one of them. *)
Lemma keep_shorter p c s :
  Js.includes c s = true -> p c = false ->
  String.length (Js.keep p s) < String.length s.
Proof.
  intros Hin Hp. induction s as [|d s IH]; simpl in *; [discriminate|].
  pose proof (keep_length p s).
  destruct (Ascii.eqb d c) eqn:Hdc.
  - apply Ascii.eqb_eq in Hdc; subst d. rewrite Hp. lia.
  - simpl in Hin. specialize (IH Hin). destruct (p d); simpl; lia.
Qed.

(** *** Splitting at a character *)

(** [split] cuts off the text before the first separator and goes on with
    the text after it. *)
Lemma split_unfold c s :
  Js.split c s =
  beforeFirst c s :: match afterFirst c s with
                     | Some rest => Js.split c rest
                     | None => []
                     end.
Proof.
  induction s as [|d s IH]; simpl; auto.
  destruct (Ascii.eqb d c); auto. now rewrite IH.
Qed.

Lemma split_first c s :
  nth_error (Js.split c s) 0 = Some (beforeFirst c s).
Proof. now rewrite split_unfold. Qed.

(** The second piece stops at the second separator. *)
Lemma split_second c s :
  nth_error (Js.split c s) 1 =
  match afterFirst c s with
  | Some rest => Some (beforeFirst c rest)
  | None => None
  end.
Proof.
  rewrite split_unfold. simpl.
  destruct (afterFirst c s) as [rest|]; auto. apply split_first.
Qed.

Lemma afterFirst_includes c s :
  Js.includes c s = true <-> exists rest, afterFirst c s = Some rest.
Proof.
  induction s as [|d s IH]; simpl.
  - split; [discriminate | intros [rest H]; discriminate].
  - destruct (Ascii.eqb d c); simpl; auto.
    split; eauto.
Qed.

Lemma beforeFirst_allChars p c s :
  allChars p s = true -> allChars p (beforeFirst c s) = true.
Proof.
  induction s as [|d s IH]; simpl; auto.
  rewrite andb_true_iff; intros [Hd Hs].
  destruct (Ascii.eqb d c); simpl; auto. rewrite Hd; auto.
Qed.

Lemma beforeFirst_excludes c s : Js.includes c (beforeFirst c s) = false.
Proof.
  induction s as [|d s IH]; simpl; auto.
  destruct (Ascii.eqb d c) eqn:Hdc; simpl; auto. now rewrite Hdc.
Qed.

Lemma beforeFirst_length c s :
  String.length (beforeFirst c s) <= String.length s.
Proof.
  induction s as [|d s IH]; simpl; auto.
  destruct (Ascii.eqb d c); simpl; lia.
Qed.

Lemma beforeFirst_startsWith d c s :
  Js.startsWith d (beforeFirst c s) = true -> Js.startsWith d s = true.
Proof.
  destruct s as [|e s]; simpl; auto.
  destruct (Ascii.eqb e c); simpl; auto. discriminate.
Qed.

Lemma includes_lower_false c s :
  allChars (fun d => negb (Ascii.eqb (Js.lowerChar d) c)) s = true ->
  Js.includes c (Js.toLowerCase s) = false.
Proof.
  induction s as [|d s IH]; simpl; auto.
  rewrite andb_true_iff, negb_true_iff; intros [-> Hs]; auto.
Qed.

(** The text before the first [x] of a lower-cased string holds neither
    [x] nor [X], before and after cleaning. *)
Lemma numberPart_plain s :
  let numberPart := beforeFirst "x" (Js.toLowerCase s) in
  Js.includes "x" (Js.toLowerCase (Js.keep cleanedChar numberPart)) = false.
Proof.
  intros numberPart. apply includes_lower_false, keep_preserves.
  apply allChars_weaken
    with (p := fun d => Ascii.eqb (Js.lowerChar d) d
                        && negb (Ascii.eqb d "x")).
  - intros d Hd. apply andb_true_iff in Hd as [Hfix Hx].
    apply Ascii.eqb_eq in Hfix. now rewrite Hfix.
  - apply allChars_both.
    + apply beforeFirst_allChars, toLowerCase_fixed.
    + apply includes_false, beforeFirst_excludes.
Qed.

(** On a cleaned string that text is itself cleaned, and starts with [+]
    only if the string does. *)
Lemma numberPart_cleaned s :
  let numberPart := beforeFirst "x" (Js.toLowerCase (Js.keep cleanedChar s)) in
  Js.keep cleanedChar numberPart = numberPart.
Proof.
  intros numberPart. apply keep_same, beforeFirst_allChars.
  apply toLowerCase_cleaned, keep_allChars.
Qed.

Lemma numberPart_startsWith_plus s :
  Js.startsWith "+" (beforeFirst "x" (Js.toLowerCase s)) = true ->
  Js.startsWith "+" s = true.
Proof.
  intros H. apply beforeFirst_startsWith in H.
  now rewrite toLowerCase_startsWith_plus in H.
Qed.

(** ** Routing in [parsePhoneNumber] *)

Lemma isEmpty_length s : Js.isEmpty s = (String.length s =? 0).
Proof. destruct s; reflexivity. Qed.

(** One call of [parsePhoneNumber], spelled out. *)
Lemma parsePhoneNumber_step depth input :
  parsePhoneNumber (S depth) input =
  let cleaned := Js.keep cleanedChar input in
  if Js.isEmpty cleaned || (String.length cleaned <? 7)
  then Some (Failure "Phone number must be at least 7 digits long")
  else if 15 <? String.length cleaned
  then Some (Failure "Phone number cannot exceed 15 digits")
  else if Js.startsWith "+" cleaned
  then Some (parseInternationalNumber cleaned)
  else if Js.includes "x" (Js.toLowerCase cleaned)
  then parseNumberWithExtension (parsePhoneNumber depth) cleaned
  else if String.length cleaned =? 10
  then Some (parseUSNumber cleaned)
  else if (String.length cleaned =? 11) && Js.startsWith "1" cleaned
  then Some (parseUSNumber (Js.sliceFrom 1 cleaned))
  else Some (Failure "Unable to parse phone number format").
Proof. reflexivity. Qed.

(** The two length guards let a cleaned string of 7 to 15 characters
    through. *)
Lemma length_guards_pass cleaned :
  7 <= String.length cleaned <= 15 ->
  Js.isEmpty cleaned || (String.length cleaned <? 7) = false
  /\ (15 <? String.length cleaned) = false.
Proof.
  intros H. rewrite isEmpty_length. split.
  - apply orb_false_iff; split; [apply Nat.eqb_neq | apply Nat.ltb_ge]; lia.
  - apply Nat.ltb_ge; lia.
Qed.

Lemma route_international depth input :
  let cleaned := Js.keep cleanedChar input in
  7 <= String.length cleaned <= 15 ->
  Js.startsWith "+" cleaned = true ->
  parsePhoneNumber (S depth) input = Some (parseInternationalNumber cleaned).
Proof.
  intros cleaned Hlen Hplus. rewrite parsePhoneNumber_step. fold cleaned.
  cbv zeta. destruct (length_guards_pass cleaned Hlen) as [-> ->].
  now rewrite Hplus.
Qed.

Lemma route_extension depth input :
  let cleaned := Js.keep cleanedChar input in
  7 <= String.length cleaned <= 15 ->
  Js.startsWith "+" cleaned = false ->
  Js.includes "x" (Js.toLowerCase cleaned) = true ->
  parsePhoneNumber (S depth) input =
  parseNumberWithExtension (parsePhoneNumber depth) cleaned.
Proof.
  intros cleaned Hlen Hplus Hx. rewrite parsePhoneNumber_step. fold cleaned.
  cbv zeta. destruct (length_guards_pass cleaned Hlen) as [-> ->].
  now rewrite Hplus, Hx.
Qed.

Lemma route_ten depth input :
  let cleaned := Js.keep cleanedChar input in
  String.length cleaned = 10 ->
  Js.startsWith "+" cleaned = false ->
  Js.includes "x" (Js.toLowerCase cleaned) = false ->
  parsePhoneNumber (S depth) input = Some (parseUSNumber cleaned).
Proof.
  intros cleaned Hlen Hplus Hx. rewrite parsePhoneNumber_step. fold cleaned.
  cbv zeta. destruct (length_guards_pass cleaned) as [-> ->]; [lia|].
  now rewrite Hplus, Hx, Hlen.
Qed.

Lemma route_eleven depth input :
  let cleaned := Js.keep cleanedChar input in
  String.length cleaned = 11 ->
  Js.startsWith "+" cleaned = false ->
  Js.includes "x" (Js.toLowerCase cleaned) = false ->
  Js.startsWith "1" cleaned = true ->
  parsePhoneNumber (S depth) input =
  Some (parseUSNumber (Js.sliceFrom 1 cleaned)).
Proof.
  intros cleaned Hlen Hplus Hx Hone. rewrite parsePhoneNumber_step.
  fold cleaned. cbv zeta.
  destruct (length_guards_pass cleaned) as [-> ->]; [lia|].
  now rewrite Hplus, Hx, Hlen, Hone.
Qed.

(** A string of ten digits goes to the US/Canada parser as it is. *)
Lemma ten_digits_route depth s :
  allChars Js.isDigit s = true -> String.length s = 10 ->
  parsePhoneNumber (S depth) s = Some (parseUSNumber s).
Proof.
  intros Hd Hlen. pose proof (digits_cleaned s Hd) as Hc.
  rewrite route_ten; rewrite Hc; auto using digits_no_plus.
  rewrite digits_lower by assumption. now apply digits_no_x.
Qed.

(** ** The shape-specific parsers *)

Lemma firstChars_allChars p n s :
  allChars p s = true -> allChars p (Js.firstChars n s) = true.
Proof.
  revert s; induction n as [|n IH]; intros [|c s]; simpl; auto.
  rewrite !andb_true_iff; intros [Hc Hs]; auto.
Qed.

Lemma international_result s p :
  parseInternationalNumber s = Success p ->
  wellFormed p /\ extension p = None.
Proof.
  unfold parseInternationalNumber. cbv zeta. intros H.
  repeat case_if; try discriminate;
    payload H; (split; [|reflexivity]);
    unfold wellFormed; cbn [nationalNumber countryCode extension];
    (split; [apply sliceFrom_allChars, keep_allChars|]);
    (split; [intros Hcode; now simpl in Hcode|]);
    (split; [reflexivity | discriminate]).
Qed.

Lemma us_result s p :
  parseUSNumber s = Success p ->
  wellFormed p /\ countryCode p = "+1" /\ extension p = None.
Proof.
  unfold parseUSNumber. cbv zeta. intros H.
  repeat case_if; try discriminate.
  payload H. unfold wellFormed.
  cbn [nationalNumber countryCode extension].
  repeat split; try discriminate. apply keep_allChars.
Qed.

(** The loop of [formatInternationalNumber] ends by its own test: more
    steps than the length of the number change nothing. *)
Lemma chunkLoop_enough s steps steps' i :
  String.length s <= i + steps -> String.length s <= i + steps' ->
  chunkLoop steps i s = chunkLoop steps' i s.
Proof.
  revert steps' i. induction steps as [|steps IH]; intros [|steps'] i H H';
    simpl; auto.
  - destruct (Nat.ltb_spec i (String.length s)); auto. lia.
  - destruct (Nat.ltb_spec i (String.length s)); auto. lia.
  - destruct (Nat.ltb_spec i (String.length s)); auto.
    f_equal. apply IH; lia.
Qed.

(** *** The extension path *)

(** The pieces [parseNumberWithExtension] works on, and what it does once
    they are there. *)
Lemma parseNumberWithExtension_pieces rec input :
  let lowered := Js.toLowerCase input in
  let numberPart := beforeFirst "x" lowered in
  parseNumberWithExtension rec input =
  match afterFirst "x" lowered with
  | None => Some (Failure "Invalid extension format")
  | Some rest =>
      let extensionPart := beforeFirst "x" rest in
      if Js.isEmpty extensionPart || Js.isEmpty numberPart
      then Some (Failure "Invalid extension format")
      else
        let digits := Js.digitsOnly numberPart in
        let extension := Js.digitsOnly extensionPart in
        if (String.length digits <? 7) || (15 <? String.length digits)
        then Some (Failure "Phone number must be 7-15 digits")
        else if (String.length extension =? 0)
                || (5 <? String.length extension)
        then Some (Failure "Extension must be 1-5 digits")
        else match rec numberPart with
             | None => None
             | Some main => Some (attachExtension extension main)
             end
  end.
Proof.
  unfold parseNumberWithExtension. cbv zeta.
  rewrite split_first, split_second.
  destruct (afterFirst "x" (Js.toLowerCase input)) as [rest|]; auto.
  repeat case_if; auto.
  destruct (rec _) as [[phoneNumber|error]|]; reflexivity.
Qed.

(** Either the path fails before it parses the main number, whatever the
    entry point it would call, or it attaches an extension of one to five
    digits to what the entry point returns for the text before the first
    [x]. *)
Lemma parseNumberWithExtension_cases input :
  let numberPart := beforeFirst "x" (Js.toLowerCase input) in
  (exists error,
      forall rec, parseNumberWithExtension rec input = Some (Failure error))
  \/ (exists extension,
         allChars Js.isDigit extension = true
         /\ 1 <= String.length extension <= 5
         /\ forall rec,
             parseNumberWithExtension rec input =
             match rec numberPart with
             | None => None
             | Some main => Some (attachExtension extension main)
             end).
Proof.
  intros numberPart.
  destruct (afterFirst "x" (Js.toLowerCase input)) as [rest|] eqn:Hrest.
  2:{ left; eexists; intros rec.
      rewrite parseNumberWithExtension_pieces. cbv zeta.
      now rewrite Hrest. }
  destruct (Js.isEmpty (beforeFirst "x" rest) || Js.isEmpty numberPart)
    eqn:Hempty.
  { left; eexists; intros rec.
    rewrite parseNumberWithExtension_pieces. cbv zeta.
    rewrite Hrest. fold numberPart. now rewrite Hempty. }
  destruct ((String.length (Js.digitsOnly numberPart) <? 7)
            || (15 <? String.length (Js.digitsOnly numberPart))) eqn:Hdigits.
  { left; eexists; intros rec.
    rewrite parseNumberWithExtension_pieces. cbv zeta.
    rewrite Hrest. fold numberPart. now rewrite Hempty, Hdigits. }
  destruct ((String.length (Js.digitsOnly (beforeFirst "x" rest)) =? 0)
            || (5 <? String.length (Js.digitsOnly (beforeFirst "x" rest))))
    eqn:Hext.
  { left; eexists; intros rec.
    rewrite parseNumberWithExtension_pieces. cbv zeta.
    rewrite Hrest. fold numberPart. now rewrite Hempty, Hdigits, Hext. }
  right. exists (Js.digitsOnly (beforeFirst "x" rest)).
  apply orb_false_iff in Hext as [Hzero Hfive].
  apply Nat.eqb_neq in Hzero. apply Nat.ltb_ge in Hfive.
  split; [apply keep_allChars|]. split; [lia|]. intros rec.
  rewrite parseNumberWithExtension_pieces. cbv zeta.
  rewrite Hrest. fold numberPart. rewrite Hempty, Hdigits.
  apply orb_false_iff in Hempty as [_ _].
  replace (String.length (Js.digitsOnly (beforeFirst "x" rest)) =? 0)
    with false by (symmetry; now apply Nat.eqb_neq).
  replace (5 <? String.length (Js.digitsOnly (beforeFirst "x" rest)))
    with false by (symmetry; now apply Nat.ltb_ge).
  reflexivity.
Qed.

(** *** Inputs without an extension mark *)

(** Without an [x] in the cleaned string the entry point does not call
    itself: one level of depth is as good as any. *)
Lemma plain_depth depth s :
  Js.includes "x" (Js.toLowerCase (Js.keep cleanedChar s)) = false ->
  parsePhoneNumber (S depth) s = parsePhoneNumber 1 s.
Proof.
  intros Hx. rewrite !parsePhoneNumber_step. cbv zeta. now rewrite Hx.
Qed.

Lemma plain_returns s :
  Js.includes "x" (Js.toLowerCase (Js.keep cleanedChar s)) = false ->
  exists r, parsePhoneNumber 1 s = Some r.
Proof.
  intros Hx. rewrite parsePhoneNumber_step. cbv zeta. rewrite Hx.
  repeat case_if; eauto.
Qed.

(** Such an input that does not start with [+] either can only succeed
    through the US/Canada parser. *)
Lemma plain_success depth s p :
  Js.startsWith "+" (Js.keep cleanedChar s) = false ->
  Js.includes "x" (Js.toLowerCase (Js.keep cleanedChar s)) = false ->
  parsePhoneNumber depth s = Some (Success p) ->
  countryCode p = "+1" /\ extension p = None.
Proof.
  intros Hplus Hx. destruct depth as [|depth]; [discriminate|].
  rewrite parsePhoneNumber_step. cbv zeta. rewrite Hplus, Hx. intros H.
  repeat case_if; try discriminate;
    injection H as H; now apply us_result in H.
Qed.

(** The main number of an input on the extension path is such an input. *)
Lemma main_number_plain s :
  let cleaned := Js.keep cleanedChar s in
  let numberPart := beforeFirst "x" (Js.toLowerCase cleaned) in
  Js.startsWith "+" cleaned = false ->
  Js.startsWith "+" (Js.keep cleanedChar numberPart) = false
  /\ Js.includes "x" (Js.toLowerCase (Js.keep cleanedChar numberPart)) = false.
Proof.
  intros cleaned numberPart Hplus. split.
  - unfold numberPart, cleaned. rewrite (numberPart_cleaned s).
    apply not_true_is_false. intros H.
    apply numberPart_startsWith_plus in H. fold cleaned in H. congruence.
  - apply numberPart_plain.
Qed.

(** Two levels of depth are as good as any. *)
Lemma depth_two_enough depth input :
  parsePhoneNumber (S (S depth)) input = parsePhoneNumber 2 input.
Proof.
  rewrite (parsePhoneNumber_step (S depth)), (parsePhoneNumber_step 1).
  cbv zeta. repeat case_if; auto.
  rewrite !parseNumberWithExtension_pieces. cbv zeta.
  rewrite (plain_depth depth) by apply numberPart_plain. reflexivity.
Qed.

(** ** The claims *)

(** C1: for a string of exactly ten ASCII digits [d1 .. d10], the parse
    succeeds with country code [+1], the ten digits as national number, no
    extension and the rendering [(d1d2d3) d4d5d6-d7d8d9d10] when neither
    [d1] nor [d4] is [0] or [1]; it fails with "Invalid area code" when [d1]
    is [0] or [1]; and it fails with "Invalid exchange code" when [d1] is
    neither but [d4] is [0] or [1]. *)
Theorem ten_digit_number (depth : nat) (d1 d2 d3 d4 d5 d6 d7 d8 d9 d10 : ascii) :
  let s := tenChars d1 d2 d3 d4 d5 d6 d7 d8 d9 d10 in
  allChars Js.isDigit s = true ->
  (d1 <> "0"%char -> d1 <> "1"%char -> d4 <> "0"%char -> d4 <> "1"%char ->
   parsePhoneNumber (S depth) s =
   Some (Success
           {| countryCode := "+1";
              nationalNumber := s;
              extension := None;
              formatted :=
                string_of_list_ascii
                  ["("; d1; d2; d3; ")"; " "; d4; d5; d6; "-";
                   d7; d8; d9; d10]%char |}))
  /\ (d1 = "0"%char \/ d1 = "1"%char ->
      parsePhoneNumber (S depth) s = Some (Failure "Invalid area code"))
  /\ (d1 <> "0"%char -> d1 <> "1"%char ->
      d4 = "0"%char \/ d4 = "1"%char ->
      parsePhoneNumber (S depth) s = Some (Failure "Invalid exchange code")).
Proof.
  intros s Hd.
  assert (Hparse : parsePhoneNumber (S depth) s = Some (parseUSNumber s))
    by (apply ten_digits_route; [assumption | reflexivity]).
  rewrite Hparse. unfold parseUSNumber.
  rewrite (digits_digitsOnly s Hd). subst s. unfold tenChars. cbn.
  split; [|split].
  - intros H1 H1' H4 H4'.
    apply Ascii.eqb_neq in H1, H1', H4, H4'.
    now rewrite H1, H1', H4, H4'.
  - intros [-> | ->]; reflexivity.
  - intros H1 H1' [-> | ->];
      apply Ascii.eqb_neq in H1, H1'; now rewrite H1, H1'.
Qed.

Lemma ten_digit_number_witness :
  parsePhoneNumber 1 "2025550147" =
  Some (Success
          {| countryCode := "+1";
             nationalNumber := "2025550147";
             extension := None;
             formatted := "(202) 555-0147" |})
  /\ parsePhoneNumber 1 "1025550147" = Some (Failure "Invalid area code")
  /\ parsePhoneNumber 1 "2021550147" = Some (Failure "Invalid exchange code").
Proof.
  split; [|split].
  - apply (ten_digit_number 0 "2" "0" "2" "5" "5" "5" "0" "1" "4" "7");
      [reflexivity | discriminate ..].
  - apply (ten_digit_number 0 "1" "0" "2" "5" "5" "5" "0" "1" "4" "7");
      [reflexivity | now right].
  - apply (ten_digit_number 0 "2" "0" "2" "1" "5" "5" "0" "1" "4" "7");
      [reflexivity | discriminate | discriminate | now right].
Defined.

(** C6: for a string [s] of exactly eleven ASCII digits that begins with
    [1], parsing [s] gives the result of parsing [s] without its leading
    [1], which is the result of the US/Canada parser on those ten digits. *)
Theorem eleven_digits_as_ten (depth : nat) (s : string) :
  String.length s = 11 ->
  allChars Js.isDigit s = true ->
  Js.startsWith "1" s = true ->
  parsePhoneNumber (S depth) s = parsePhoneNumber (S depth) (Js.sliceFrom 1 s)
  /\ parsePhoneNumber (S depth) s = Some (parseUSNumber (Js.sliceFrom 1 s)).
Proof.
  intros Hlen Hd Hone.
  assert (H11 : parsePhoneNumber (S depth) s
                = Some (parseUSNumber (Js.sliceFrom 1 s))).
  { pose proof (digits_cleaned s Hd) as Hc.
    rewrite route_eleven; rewrite Hc; auto using digits_no_plus.
    rewrite digits_lower by assumption. now apply digits_no_x. }
  split; [|exact H11]. rewrite H11. symmetry. apply ten_digits_route.
  - now apply sliceFrom_allChars.
  - rewrite sliceFrom_length. lia.
Qed.

Lemma eleven_digits_as_ten_witness :
  parsePhoneNumber 1 "12025550147" = parsePhoneNumber 1 "2025550147"
  /\ parsePhoneNumber 1 "12025550147" = Some (parseUSNumber "2025550147").
Proof.
  apply (eleven_digits_as_ten 0 "12025550147"); reflexivity.
Defined.

(** C7: when the cleaned string (the digits, [+], [x] and [X] of the
    input) has fewer than seven characters, the empty string included, the
    parse fails with "Phone number must be at least 7 digits long".  The
    length is that of the cleaned string: [+] and [x] count. *)
Theorem short_input_rejected (depth : nat) (input : string) :
  String.length (Js.keep cleanedChar input) < 7 ->
  parsePhoneNumber (S depth) input =
  Some (Failure "Phone number must be at least 7 digits long").
Proof.
  intros Hlen. rewrite parsePhoneNumber_step. cbv zeta.
  apply Nat.ltb_lt in Hlen. rewrite Hlen. now rewrite orb_true_r.
Qed.

Lemma short_input_rejected_witness :
  String.length (Js.keep cleanedChar "(12) 34-5") < 7
  /\ parsePhoneNumber 1 "(12) 34-5" =
     Some (Failure "Phone number must be at least 7 digits long").
Proof.
  split; [vm_compute; lia | apply (short_input_rejected 0); vm_compute; lia].
Defined.

(** The same guard lets a string of five digits, a [+] and an [x] through:
    its cleaned length is seven although it has five digits. *)
Example cleaned_length_counts_plus_and_x :
  parsePhoneNumber 1 "12+34x5" <>
  Some (Failure "Phone number must be at least 7 digits long")
  /\ parsePhoneNumber 1 "12+345" =
     Some (Failure "Phone number must be at least 7 digits long").
Proof. split; [vm_compute; discriminate | reflexivity]. Qed.

(** C9: when the cleaned string has exactly ten characters, does not start
    with [+], holds no [x] and no [X], and holds a [+] somewhere, the parse
    fails with "US/Canada phone number must be exactly 10 digits". *)
Theorem ten_chars_with_plus (depth : nat) (input : string) :
  let cleaned := Js.keep cleanedChar input in
  String.length cleaned = 10 ->
  Js.startsWith "+" cleaned = false ->
  Js.includes "x" cleaned = false ->
  Js.includes "X" cleaned = false ->
  Js.includes "+" cleaned = true ->
  parsePhoneNumber (S depth) input =
  Some (Failure "US/Canada phone number must be exactly 10 digits").
Proof.
  intros cleaned Hlen Hstart Hx HX Hplus.
  rewrite route_ten; fold cleaned; auto.
  - unfold parseUSNumber.
    assert (Hshort : String.length (Js.digitsOnly cleaned) < 10).
    { rewrite <- Hlen. apply keep_shorter with (c := "+"%char); auto. }
    replace (String.length (Js.digitsOnly cleaned) =? 10) with false; auto.
    symmetry. apply Nat.eqb_neq. lia.
  - now rewrite includes_x_lower, Hx, HX.
Qed.

Lemma ten_chars_with_plus_witness :
  parsePhoneNumber 1 "555+123456" =
  Some (Failure "US/Canada phone number must be exactly 10 digits").
Proof.
  apply (ten_chars_with_plus 0 "555+123456"); reflexivity.
Defined.

Lemma returned {A : Type} (a b : A) : Some a = Some b -> a = b.
Proof. congruence. Qed.

Lemma not_empty s : s <> EmptyString -> Js.isEmpty s = false.
Proof. destruct s; [congruence | reflexivity]. Qed.

(** C4: on the extension path, once the digit count of the main number and
    the length of the extension have passed their checks, the text before
    the first [x] is parsed by the entry point itself; a failure of that
    parse is the result as it is, and a success is the result with the
    extension attached and [" ext. <extension>"] appended to its
    rendering. *)
Theorem extension_reparses_main_number
  (depth : nat) (input numberPart extensionPart : string)
  (others : list string) :
  let cleaned := Js.keep cleanedChar input in
  7 <= String.length cleaned <= 15 ->
  Js.startsWith "+" cleaned = false ->
  Js.includes "x" (Js.toLowerCase cleaned) = true ->
  Js.split "x" (Js.toLowerCase cleaned)
    = numberPart :: extensionPart :: others ->
  numberPart <> EmptyString ->
  extensionPart <> EmptyString ->
  7 <= String.length (Js.digitsOnly numberPart) <= 15 ->
  1 <= String.length (Js.digitsOnly extensionPart) <= 5 ->
  let extension := Js.digitsOnly extensionPart in
  exists main,
    parsePhoneNumber (S depth) numberPart = Some main
    /\ parsePhoneNumber (S (S depth)) input =
       Some match main with
            | Failure error => Failure error
            | Success phoneNumber =>
                Success
                  {| countryCode := countryCode phoneNumber;
                     nationalNumber := nationalNumber phoneNumber;
                     extension := Some extension;
                     formatted :=
                       formatted phoneNumber ++ " ext. " ++ extension |}
            end.
Proof.
  intros cleaned Hlen Hplus Hx Hsplit Hnumber Hextension Hdigits Hext
         extension.
  assert (Hmain : numberPart = beforeFirst "x" (Js.toLowerCase cleaned)).
  { pose proof (split_first "x" (Js.toLowerCase cleaned)) as H.
    rewrite Hsplit in H. simpl in H. congruence. }
  destruct (plain_returns numberPart) as [main Hreturn].
  { rewrite Hmain. apply numberPart_plain. }
  exists main. split.
  { rewrite plain_depth; auto. rewrite Hmain. apply numberPart_plain. }
  rewrite route_extension by assumption. fold cleaned.
  unfold parseNumberWithExtension. cbv zeta. rewrite Hsplit.
  cbn [nth_error].
  rewrite (not_empty _ Hnumber), (not_empty _ Hextension). cbn [orb].
  replace ((String.length (Js.digitsOnly numberPart) <? 7)
           || (15 <? String.length (Js.digitsOnly numberPart))) with false
    by (symmetry; apply orb_false_iff; split; apply Nat.ltb_ge; lia).
  replace ((String.length (Js.digitsOnly extensionPart) =? 0)
           || (5 <? String.length (Js.digitsOnly extensionPart))) with false
    by (symmetry; apply orb_false_iff; split;
        [apply Nat.eqb_neq | apply Nat.ltb_ge]; lia).
  rewrite plain_depth by (rewrite Hmain; apply numberPart_plain).
  rewrite Hreturn. destruct main; reflexivity.
Qed.

Lemma extension_reparses_main_number_witness :
  exists main,
    parsePhoneNumber 1 "2025550147" = Some main
    /\ parsePhoneNumber 2 "(202) 555-0147 x89" =
       Some match main with
            | Failure error => Failure error
            | Success phoneNumber =>
                Success
                  {| countryCode := countryCode phoneNumber;
                     nationalNumber := nationalNumber phoneNumber;
                     extension := Some "89";
                     formatted := formatted phoneNumber ++ " ext. 89" |}
            end.
Proof.
  apply (extension_reparses_main_number
           0 "(202) 555-0147 x89" "2025550147" "89" []);
    try reflexivity; try discriminate; vm_compute; lia.
Defined.

(** A main number that fails hands its own failure on. *)
Example main_number_failure_is_handed_on :
  parsePhoneNumber 2 "555-123-4567x89" = Some (Failure "Invalid exchange code")
  /\ parsePhoneNumber 2 "20255501x89"
     = Some (Failure "Unable to parse phone number format").
Proof. split; reflexivity. Qed.

(** C5: the payload of a success has a national number of ASCII digits
    only, a country code that is not empty and begins with [+], and, when
    it has an extension, an extension of one to five ASCII digits. *)
Theorem success_is_well_formed (depth : nat) (input : string) (p : PhoneNumber) :
  parsePhoneNumber depth input = Some (Success p) -> wellFormed p.
Proof.
  revert input p. induction depth as [|depth IH]; intros input p H;
    [discriminate|].
  rewrite parsePhoneNumber_step in H. cbv zeta in H.
  destruct (Js.isEmpty _ || _); [discriminate|].
  destruct (15 <? _); [discriminate|].
  destruct (Js.startsWith "+" _).
  { apply returned, international_result in H. tauto. }
  destruct (Js.includes "x" _).
  { destruct (parseNumberWithExtension_cases (Js.keep cleanedChar input))
      as [[error Hfail] | (ext & Hdigits & Hlen & Hrec)].
    - rewrite Hfail in H. discriminate.
    - rewrite Hrec in H.
      destruct (parsePhoneNumber depth _) as [[main|error]|] eqn:Hmain;
        try discriminate.
      apply IH in Hmain. destruct Hmain as (Hnational & Hcode & Hplus & _).
      unfold attachExtension in H. payload H. unfold wellFormed.
      cbn [nationalNumber countryCode extension].
      do 3 (split; [assumption|]).
      intros e He. apply returned in He. subst e. split; [assumption | lia]. }
  repeat case_if; try discriminate;
    apply returned, us_result in H; tauto.
Qed.

Lemma success_is_well_formed_witness :
  wellFormed
    {| countryCode := "+1";
       nationalNumber := "2025550147";
       extension := Some "89";
       formatted := "(202) 555-0147 ext. 89" |}.
Proof.
  apply (success_is_well_formed 2 "(202) 555-0147 x89"). reflexivity.
Defined.

(** C8: a success that carries an extension has country code [+1]. *)
Theorem extension_implies_us
  (depth : nat) (input : string) (p : PhoneNumber) (e : string) :
  parsePhoneNumber depth input = Some (Success p) ->
  extension p = Some e ->
  countryCode p = "+1".
Proof.
  destruct depth as [|depth]; intros H He; [discriminate|].
  rewrite parsePhoneNumber_step in H. cbv zeta in H.
  destruct (Js.isEmpty _ || _); [discriminate|].
  destruct (15 <? _); [discriminate|].
  destruct (Js.startsWith "+" _) eqn:Hplus.
  { apply returned, international_result in H. destruct H as [_ H].
    congruence. }
  destruct (Js.includes "x" _).
  { destruct (parseNumberWithExtension_cases (Js.keep cleanedChar input))
      as [[error Hfail] | (ext & _ & _ & Hrec)].
    - rewrite Hfail in H. discriminate.
    - rewrite Hrec in H.
      destruct (parsePhoneNumber depth _) as [[main|error]|] eqn:Hmain;
        try discriminate.
      destruct (main_number_plain input Hplus) as [Hplus' Hx'].
      apply plain_success in Hmain as [Hcode _]; auto.
      unfold attachExtension in H. payload H. exact Hcode. }
  repeat case_if; try discriminate;
    apply returned, us_result in H; tauto.
Qed.

Lemma extension_implies_us_witness :
  countryCode
    {| countryCode := "+1";
       nationalNumber := "2025550147";
       extension := Some "89";
       formatted := "(202) 555-0147 ext. 89" |} = "+1".
Proof.
  apply (extension_implies_us 2 "(202) 555-0147 x89" _ "89"); reflexivity.
Defined.

(** An input that starts with [+] is parsed as an international number
    whatever follows, so its [x] is not an extension mark. *)
Example plus_wins_over_x :
  parsePhoneNumber 2 "+44 20 7123 45 x89" =
  Some (Success
          {| countryCode := "+44";
             nationalNumber := "2071234589";
             extension := None;
             formatted := "+44 2071234589" |}).
Proof. reflexivity. Qed.

(** C10: the parse returns on every input, with no more than two nested
    calls of the entry point: the inner call is on the text before the first
    [x], which has no [x] left and so returns with no further call. *)
Theorem parse_terminates :
  (forall input, exists r,
      forall depth, parsePhoneNumber (2 + depth) input = Some r)
  /\ (forall input,
        let numberPart := beforeFirst "x" (Js.toLowerCase input) in
        nth_error (Js.split "x" (Js.toLowerCase input)) 0 = Some numberPart
        /\ Js.includes "x" numberPart = false
        /\ Js.includes "x" (Js.toLowerCase (Js.keep cleanedChar numberPart))
           = false
        /\ exists r,
            forall depth, parsePhoneNumber (1 + depth) numberPart = Some r).
Proof.
  assert (Hinner : forall s,
             exists r, forall depth,
               parsePhoneNumber (1 + depth)
                 (beforeFirst "x" (Js.toLowerCase s)) = Some r).
  { intros s. destruct (plain_returns (beforeFirst "x" (Js.toLowerCase s)))
      as [r Hr]; [apply numberPart_plain|].
    exists r. intros depth. simpl plus.
    rewrite plain_depth; auto using numberPart_plain. }
  split.
  - intros input.
    assert (H2 : exists r, parsePhoneNumber 2 input = Some r).
    { rewrite parsePhoneNumber_step. cbv zeta. repeat case_if; eauto.
      destruct (parseNumberWithExtension_cases (Js.keep cleanedChar input))
        as [[error Hfail] | (ext & _ & _ & Hrec)].
      + rewrite Hfail. eauto.
      + rewrite Hrec.
        destruct (Hinner (Js.keep cleanedChar input)) as [r Hr].
        specialize (Hr 0). simpl plus in Hr. rewrite Hr. eauto. }
    destruct H2 as [r Hr]. exists r. intros depth. simpl plus.
    now rewrite depth_two_enough.
  - intros input numberPart. split; [apply split_first|].
    split; [apply beforeFirst_excludes|].
    split; [apply numberPart_plain | apply Hinner].
Qed.

(** The second call is needed: with one level of depth an input with an
    extension does not return. *)
Example depth_two_is_reached :
  parsePhoneNumber 1 "2025550147x89" = None
  /\ parsePhoneNumber 2 "2025550147x89" <> None.
Proof. split; [reflexivity | discriminate]. Qed.

(** *** The extension path: where the input is cut *)

(** C2, as stated, fails: with a second [x] in the input the extension is
    taken from the text between the two, not from all that follows the
    first. *)
Lemma extension_split_counterexample :
  ~ extensionSplitClaim_as_stated 0 "202-555-0147 x1 x2".
Proof.
  unfold extensionSplitClaim_as_stated. cbv zeta. intros H.
  destruct H as (extensionPart & Hafter & _ & Hext);
    [vm_compute; lia | reflexivity | reflexivity |].
  vm_compute in Hafter. apply returned in Hafter. subst extensionPart.
  specialize (Hext ltac:(discriminate) ltac:(discriminate) _ eq_refl).
  vm_compute in Hext. discriminate.
Qed.

(** What the code returns there. *)
Example second_x_ends_the_extension :
  parsePhoneNumber 2 "202-555-0147 x1 x2" =
  Some (Success
          {| countryCode := "+1";
             nationalNumber := "2025550147";
             extension := Some "1";
             formatted := "(202) 555-0147 ext. 1" |})
  /\ parsePhoneNumber 2 "202-555-0147 xx12" =
     Some (Failure "Invalid extension format").
Proof. split; reflexivity. Qed.

(** C2, amended: on the extension path the lower-cased cleaned string is
    cut at its [x] characters; the number part is the text before the first
    [x] and the extension part the text between the first [x] and the
    second, or the end of the string when there is no second [x].  When
    either part is empty the parse fails with "Invalid extension format";
    otherwise the extension is that extension part without its
    non-digits: it is the extension whose length is tested, and the one
    attached to the result of parsing the number part. *)
Theorem extension_split (depth : nat) (input : string) :
  let cleaned := Js.keep cleanedChar input in
  7 <= String.length cleaned <= 15 ->
  Js.startsWith "+" cleaned = false ->
  Js.includes "x" (Js.toLowerCase cleaned) = true ->
  exists afterX,
    afterFirst "x" (Js.toLowerCase cleaned) = Some afterX
    /\ let numberPart := beforeFirst "x" (Js.toLowerCase cleaned) in
       let extensionPart := beforeFirst "x" afterX in
       nth_error (Js.split "x" (Js.toLowerCase cleaned)) 0 = Some numberPart
       /\ nth_error (Js.split "x" (Js.toLowerCase cleaned)) 1
          = Some extensionPart
       /\ (numberPart = EmptyString \/ extensionPart = EmptyString ->
           parsePhoneNumber (2 + depth) input =
           Some (Failure "Invalid extension format"))
       /\ (numberPart <> EmptyString -> extensionPart <> EmptyString ->
           let extension := Js.digitsOnly extensionPart in
           exists main,
             parsePhoneNumber (1 + depth) numberPart = Some main
             /\ parsePhoneNumber (2 + depth) input =
                if (String.length (Js.digitsOnly numberPart) <? 7)
                   || (15 <? String.length (Js.digitsOnly numberPart))
                then Some (Failure "Phone number must be 7-15 digits")
                else if (String.length extension =? 0)
                        || (5 <? String.length extension)
                then Some (Failure "Extension must be 1-5 digits")
                else Some (attachExtension extension main))
       /\ (numberPart <> EmptyString -> extensionPart <> EmptyString ->
           forall p,
             parsePhoneNumber (2 + depth) input = Some (Success p) ->
             extension p = Some (Js.digitsOnly extensionPart)).
Proof.
  intros cleaned Hlen Hplus Hx.
  destruct (proj1 (afterFirst_includes _ _) Hx) as [afterX Hafter].
  exists afterX. split; [assumption|]. cbv zeta.
  split; [apply split_first|].
  split; [rewrite split_second; now rewrite Hafter|].
  simpl plus. rewrite route_extension by assumption. fold cleaned.
  rewrite parseNumberWithExtension_pieces. cbv zeta. rewrite Hafter.
  split; [|split].
  - intros [-> | ->]; cbn [Js.isEmpty orb]; [|reflexivity].
    now rewrite orb_true_r.
  - intros Hnumber Hextension.
    rewrite (not_empty _ Hnumber), (not_empty _ Hextension). cbn [orb].
    destruct (plain_returns (beforeFirst "x" (Js.toLowerCase cleaned)))
      as [main Hmain]; [apply numberPart_plain|].
    exists main.
    rewrite !plain_depth by apply numberPart_plain.
    split; [assumption|]. now rewrite Hmain.
  - intros Hnumber Hextension p.
    rewrite (not_empty _ Hnumber), (not_empty _ Hextension). cbn [orb].
    repeat case_if; try discriminate.
    destruct (parsePhoneNumber _ _) as [[main|error]|];
      try discriminate.
    unfold attachExtension. intros H. payload H. reflexivity.
Qed.

Lemma extension_split_witness :
  parsePhoneNumber 2 "x2025550147" = Some (Failure "Invalid extension format")
  /\ parsePhoneNumber 2 "202-555-0147 xx12"
     = Some (Failure "Invalid extension format")
  /\ parsePhoneNumber 2 "202-555-0147 x1 x2" =
     Some (Success
             {| countryCode := "+1";
                nationalNumber := "2025550147";
                extension := Some "1";
                formatted := "(202) 555-0147 ext. 1" |})
  /\ parsePhoneNumber 2 "202-555-0147 x+ x2"
     = Some (Failure "Extension must be 1-5 digits").
Proof.
  split; [|split; [|split]].
  - destruct (extension_split 0 "x2025550147")
      as (afterX & _ & _ & _ & Hempty & _);
      [vm_compute; lia | reflexivity | reflexivity |].
    apply Hempty. now left.
  - destruct (extension_split 0 "202-555-0147 xx12")
      as (afterX & Hafter & _ & _ & Hempty & _);
      [vm_compute; lia | reflexivity | reflexivity |].
    vm_compute in Hafter. apply returned in Hafter. subst afterX.
    apply Hempty. now right.
  - destruct (extension_split 0 "202-555-0147 x1 x2")
      as (afterX & Hafter & _ & _ & _ & Hresult & _);
      [vm_compute; lia | reflexivity | reflexivity |].
    vm_compute in Hafter. apply returned in Hafter. subst afterX.
    destruct Hresult as (main & Hmain & Hresult); [discriminate ..|].
    vm_compute in Hmain. apply returned in Hmain. subst main.
    refine (eq_trans Hresult _). reflexivity.
  - destruct (extension_split 0 "202-555-0147 x+ x2")
      as (afterX & Hafter & _ & _ & _ & Hresult & _);
      [vm_compute; lia | reflexivity | reflexivity |].
    vm_compute in Hafter. apply returned in Hafter. subst afterX.
    destruct Hresult as (main & _ & Hresult); [discriminate ..|].
    refine (eq_trans Hresult _). reflexivity.
Defined.

(** *** International numbers *)

(** The chain of [startsWith] tests computes the length the specification
    describes. *)
Lemma countryCodeLength_agrees digits :
  (if Js.startsWith "1" digits then 1
   else if Js.startsWith "7" digits then 1
   else if Js.startsWith "8" digits then 1
   else if Js.startsWith "9" digits then 1
   else 2) = countryCodeLengthOf digits.
Proof.
  destruct digits as [|c digits]; simpl; auto.
  destruct (Ascii.eqb c "1"), (Ascii.eqb c "7"), (Ascii.eqb c "8"),
    (Ascii.eqb c "9"); reflexivity.
Qed.

Lemma slice_from_start n s : Js.slice 0 n s = Js.firstChars n s.
Proof. unfold Js.slice. now rewrite Nat.sub_0_r. Qed.

(** The international parser on any string: the outcome depends on the
    digits of the string alone. *)
Lemma parseInternationalNumber_outcomes s :
  let digits := Js.digitsOnly s in
  let countryCode := Js.firstChars (countryCodeLengthOf digits) digits in
  let nationalNumber := Js.sliceFrom (countryCodeLengthOf digits) digits in
  (8 <= String.length digits <= 15 ->
   (String.length nationalNumber < 7 ->
    Some (parseInternationalNumber s) =
    Some (Failure "National number too short after country code"))
   /\ (7 <= String.length nationalNumber ->
       Some (parseInternationalNumber s) =
       Some (Success
               {| countryCode := "+" ++ countryCode;
                  nationalNumber := nationalNumber;
                  extension := None;
                  formatted :=
                    formatInternationalNumber countryCode nationalNumber |})))
  /\ (~ 8 <= String.length digits <= 15 ->
      Some (parseInternationalNumber s) =
      Some (Failure "International phone number must be 8-15 digits")).
Proof.
  intros digits countryCode nationalNumber.
  unfold parseInternationalNumber. cbv zeta. fold digits.
  rewrite countryCodeLength_agrees, slice_from_start.
  fold countryCode nationalNumber.
  destruct (Nat.ltb_spec (String.length digits) 8) as [Hlow|Hlow];
    destruct (Nat.ltb_spec 15 (String.length digits)) as [Hhigh|Hhigh];
    cbn [orb]; (split; [intros Hrange; try lia | intros Hrange]);
    try reflexivity; try lia.
  split; intros Hnational.
  - apply Nat.ltb_lt in Hnational. now rewrite Hnational.
  - apply Nat.ltb_ge in Hnational. now rewrite Hnational.
Qed.

(** C3, as stated, fails at both ends of the range: the guards on the
    length of the cleaned string, which counts the [+], come first.  Five
    digits after a [+] are rejected as shorter than seven characters, and
    fifteen digits after a [+] as longer than fifteen. *)
Lemma international_counterexample :
  ~ internationalClaim_as_stated 0 "+12345"
  /\ ~ internationalClaim_as_stated 0 "+123456789012345".
Proof.
  unfold internationalClaim_as_stated. cbv zeta. split; intros H.
  - destruct H as [_ H]; [reflexivity|].
    assert (Hfive : ~ 8 <= String.length (Js.digitsOnly "+12345") <= 15)
      by (vm_compute; lia).
    specialize (H Hfive). vm_compute in H. discriminate.
  - destruct H as [H _]; [reflexivity|].
    destruct H as [_ H]; [vm_compute; lia|].
    assert (Hlong : 7 <= String.length
                          (Js.sliceFrom
                             (countryCodeLengthOf
                                (Js.digitsOnly "+123456789012345"))
                             (Js.digitsOnly "+123456789012345")))
      by (vm_compute; lia).
    specialize (H Hlong). vm_compute in H. discriminate.
Qed.

(** What the code returns there. *)
Example length_guards_come_first :
  parsePhoneNumber 1 "+12345" =
  Some (Failure "Phone number must be at least 7 digits long")
  /\ parsePhoneNumber 1 "+123456789012345" =
     Some (Failure "Phone number cannot exceed 15 digits").
Proof. split; reflexivity. Qed.

(** C3, amended: for an input whose cleaned string has 7 to 15 characters
    and starts with [+].  With 8 to 15 digits, the country code is [+] and
    the first digit when that digit is 1, 7, 8 or 9, and [+] and the first
    two digits otherwise; the national number is the rest of the digits;
    the parse fails with "National number too short after country code"
    when fewer than seven digits remain, and succeeds with that country
    code and national number otherwise.  With another number of digits the
    parse fails with "International phone number must be 8-15 digits". *)
Theorem international_number (depth : nat) (input : string) :
  let cleaned := Js.keep cleanedChar input in
  7 <= String.length cleaned <= 15 ->
  Js.startsWith "+" cleaned = true ->
  let digits := Js.digitsOnly input in
  let countryCode := Js.firstChars (countryCodeLengthOf digits) digits in
  let nationalNumber := Js.sliceFrom (countryCodeLengthOf digits) digits in
  (8 <= String.length digits <= 15 ->
   (String.length nationalNumber < 7 ->
    parsePhoneNumber (S depth) input =
    Some (Failure "National number too short after country code"))
   /\ (7 <= String.length nationalNumber ->
       parsePhoneNumber (S depth) input =
       Some (Success
               {| countryCode := "+" ++ countryCode;
                  nationalNumber := nationalNumber;
                  extension := None;
                  formatted :=
                    formatInternationalNumber countryCode nationalNumber |})))
  /\ (~ 8 <= String.length digits <= 15 ->
      parsePhoneNumber (S depth) input =
      Some (Failure "International phone number must be 8-15 digits")).
Proof.
  intros cleaned Hlen Hplus digits.
  rewrite route_international by assumption. fold cleaned.
  unfold digits. rewrite <- (digitsOnly_cleaned input). fold cleaned.
  apply parseInternationalNumber_outcomes.
Qed.

Lemma international_number_witness :
  parsePhoneNumber 1 "+44 20 7123 4567" =
  Some (Success
          {| countryCode := "+44";
             nationalNumber := "2071234567";
             extension := None;
             formatted := "+44 2071234567" |})
  /\ parsePhoneNumber 1 "+7 495 123 45 67" =
     Some (Success
             {| countryCode := "+7";
                nationalNumber := "4951234567";
                extension := None;
                formatted := "+7 4951234567" |})
  /\ parsePhoneNumber 1 "+44 123456" =
     Some (Failure "National number too short after country code")
  /\ parsePhoneNumber 1 "+1234567" =
     Some (Failure "International phone number must be 8-15 digits").
Proof.
  split; [|split; [|split]].
  - apply (international_number 0 "+44 20 7123 4567");
      try reflexivity; vm_compute; lia.
  - apply (international_number 0 "+7 495 123 45 67");
      try reflexivity; vm_compute; lia.
  - apply (international_number 0 "+44 123456");
      try reflexivity; vm_compute; lia.
  - apply (international_number 0 "+1234567");
      try reflexivity; vm_compute; lia.
Defined.

(** *** Sample inputs *)

(** The exchange code of [555-123-4567] starts with [1]: the number is
    rejected, with or without a leading [1] or an extension. *)
Example exchange_code_of_555_123_4567 :
  parsePhoneNumber 2 "5551234567" = Some (Failure "Invalid exchange code")
  /\ parsePhoneNumber 2 "15551234567" = Some (Failure "Invalid exchange code")
  /\ parsePhoneNumber 2 "0551234567" = Some (Failure "Invalid area code")
  /\ parsePhoneNumber 2 "123456" =
     Some (Failure "Phone number must be at least 7 digits long").
Proof. repeat split. Qed.

(** A national number of more than ten digits is rendered in groups of
    four. *)
Example long_national_number_in_groups :
  parsePhoneNumber 2 "+12345678901234" =
  Some (Success
          {| countryCode := "+1";
             nationalNumber := "2345678901234";
             extension := None;
             formatted := "+1 2345 6789 0123 4" |}).
Proof. reflexivity. Qed.

(** * Further properties of the parser *)

(** ** More on the string primitives *)

Lemma append_length a b :
  String.length (a ++ b) = String.length a + String.length b.
Proof. induction a as [|c a IH]; simpl; auto. Qed.

Lemma append_empty a : a ++ EmptyString = a.
Proof. induction a as [|c a IH]; simpl; congruence. Qed.

Lemma keep_append p a b : Js.keep p (a ++ b) = Js.keep p a ++ Js.keep p b.
Proof.
  induction a as [|c a IH]; simpl; auto.
  destruct (p c); simpl; now rewrite IH.
Qed.

Lemma keep_idempotent p s : Js.keep p (Js.keep p s) = Js.keep p s.
Proof. apply keep_same, keep_allChars. Qed.

Lemma allChars_append p a b :
  allChars p (a ++ b) = allChars p a && allChars p b.
Proof.
  induction a as [|c a IH]; simpl; auto.
  now rewrite IH, andb_assoc.
Qed.

Lemma toLowerCase_append a b :
  Js.toLowerCase (a ++ b) = Js.toLowerCase a ++ Js.toLowerCase b.
Proof. induction a as [|c a IH]; simpl; congruence. Qed.

Lemma toLowerCase_idempotent s :
  Js.toLowerCase (Js.toLowerCase s) = Js.toLowerCase s.
Proof. apply toLowerCase_same, toLowerCase_fixed. Qed.

Lemma firstChars_sliceFrom n s : Js.firstChars n s ++ Js.sliceFrom n s = s.
Proof.
  revert s; induction n as [|n IH]; intros [|c s]; simpl; auto.
  now rewrite IH.
Qed.

Lemma sliceFrom_sliceFrom n m s :
  Js.sliceFrom m (Js.sliceFrom n s) = Js.sliceFrom (n + m) s.
Proof.
  revert s; induction n as [|n IH]; intros s; simpl; auto.
  destruct s as [|c s]; auto. now destruct m.
Qed.

Lemma sliceFrom_beyond n s :
  String.length s <= n -> Js.sliceFrom n s = EmptyString.
Proof.
  revert s; induction n as [|n IH]; intros [|c s]; simpl; auto;
    intros H; [lia | apply IH; lia].
Qed.

Lemma firstChars_length n s :
  String.length (Js.firstChars n s) = Nat.min n (String.length s).
Proof.
  revert s; induction n as [|n IH]; intros [|c s]; simpl; auto.
Qed.

Lemma slice_as_firstChars b e s :
  Js.slice b e s = Js.firstChars (e - b) (Js.sliceFrom b s).
Proof. reflexivity. Qed.

Lemma digits_of_digits s :
  allChars Js.isDigit s = true -> allChars cleanedChar s = true.
Proof. apply allChars_weaken, digit_is_cleaned. Qed.

Lemma digits_startsWith_plus_false s :
  Js.startsWith "+" (Js.digitsOnly s) = false.
Proof. apply digits_no_plus, keep_allChars. Qed.

(** The digits of a string are no more than its characters, and fewer
    when it holds a character that is no digit. *)
Lemma digitsOnly_length s :
  String.length (Js.digitsOnly s) <= String.length s.
Proof. apply keep_length. Qed.

Lemma beforeFirst_afterFirst_length c s rest :
  afterFirst c s = Some rest ->
  String.length s = String.length (beforeFirst c s) + 1 + String.length rest.
Proof.
  induction s as [|d s IH]; simpl; [discriminate|].
  destruct (Ascii.eqb d c); intros H.
  - apply returned in H. subst rest. simpl. lia.
  - simpl. rewrite (IH H). lia.
Qed.

Lemma beforeFirst_absent c s :
  Js.includes c s = false -> beforeFirst c s = s /\ afterFirst c s = None.
Proof.
  induction s as [|d s IH]; simpl; auto.
  destruct (Ascii.eqb d c); simpl; [discriminate|].
  intros H. destruct (IH H) as [-> ->]. auto.
Qed.

Lemma beforeFirst_append c a b :
  Js.includes c a = false ->
  beforeFirst c (a ++ String c b) = a
  /\ afterFirst c (a ++ String c b) = Some b.
Proof.
  induction a as [|d a IH]; simpl.
  - now rewrite Ascii.eqb_refl.
  - destruct (Ascii.eqb d c); simpl; [discriminate|].
    intros H. destruct (IH H) as [-> ->]. auto.
Qed.

Lemma keep_beforeFirst_length p c s :
  String.length (Js.keep p (beforeFirst c s)) <= String.length (Js.keep p s).
Proof.
  induction s as [|d s IH]; simpl; auto.
  destruct (Ascii.eqb d c); simpl; [lia|].
  destruct (p d); simpl; lia.
Qed.

(** ** More on characters *)

Lemma lower_keeps_class c : cleanedChar (Js.lowerChar c) = cleanedChar c.
Proof. by_cases_on_char c. Qed.

Lemma lower_keeps_digit c : Js.isDigit (Js.lowerChar c) = Js.isDigit c.
Proof. by_cases_on_char c. Qed.

Lemma lower_is_one c :
  Ascii.eqb (Js.lowerChar c) "1" = Ascii.eqb c "1".
Proof. by_cases_on_char c. Qed.

Lemma toLowerCase_keep_cleaned s :
  Js.keep cleanedChar (Js.toLowerCase s)
  = Js.toLowerCase (Js.keep cleanedChar s).
Proof.
  induction s as [|c s IH]; simpl; auto.
  rewrite lower_keeps_class. destruct (cleanedChar c); simpl; congruence.
Qed.

Lemma toLowerCase_digitsOnly s :
  Js.digitsOnly (Js.toLowerCase s) = Js.digitsOnly s.
Proof.
  unfold Js.digitsOnly. induction s as [|c s IH]; simpl; auto.
  rewrite lower_keeps_digit. destruct (Js.isDigit c) eqn:Hc; auto.
  now rewrite IH, (digit_lower c Hc).
Qed.

Lemma toLowerCase_sliceFrom n s :
  Js.sliceFrom n (Js.toLowerCase s) = Js.toLowerCase (Js.sliceFrom n s).
Proof.
  revert s; induction n as [|n IH]; intros [|c s]; simpl; auto.
Qed.

(** ** The rendering of international numbers *)

Lemma chunkLoop_step steps i nn :
  chunkLoop (S steps) i nn =
  if i <? String.length nn
  then Js.slice i (i + 4) nn :: chunkLoop steps (i + 4) nn
  else [].
Proof. reflexivity. Qed.

(** A group of the loop is the next four characters, or what is left. *)
Lemma chunk_is_next_four i nn :
  Js.slice i (i + 4) nn = Js.firstChars 4 (Js.sliceFrom i nn).
Proof. rewrite slice_as_firstChars. f_equal. lia. Qed.

Lemma concat_keep q x xs :
  q " "%char = false ->
  Js.keep q (String.concat " " (x :: xs))
  = Js.keep q x ++ Js.keep q (String.concat " " xs).
Proof.
  intros Hspace. destruct xs as [|y ys].
  - simpl. now rewrite append_empty.
  - change (String.concat " " (x :: y :: ys))
      with (x ++ " " ++ String.concat " " (y :: ys)).
    rewrite !keep_append. f_equal. simpl. now rewrite Hspace.
Qed.

(** Deleting the separators from the joined groups gives back the text
    the loop started from. *)
Lemma chunks_keep q nn :
  q " "%char = false -> allChars q nn = true ->
  forall steps i,
    String.length nn <= i + steps ->
    Js.keep q (String.concat " " (chunkLoop steps i nn)) = Js.sliceFrom i nn.
Proof.
  intros Hspace Hall. induction steps as [|steps IH]; intros i Hsteps.
  - simpl. symmetry. apply sliceFrom_beyond. lia.
  - rewrite chunkLoop_step.
    destruct (Nat.ltb_spec i (String.length nn)) as [Hin|Hout].
    + rewrite concat_keep by assumption. rewrite IH by lia.
      rewrite chunk_is_next_four.
      rewrite keep_same
        by now apply firstChars_allChars, sliceFrom_allChars.
      rewrite <- (sliceFrom_sliceFrom i 4). apply firstChars_sliceFrom.
    + simpl. symmetry. now apply sliceFrom_beyond.
Qed.

Lemma chunks_sizes nn steps i :
  Forall (fun group => 1 <= String.length group <= 4) (chunkLoop steps i nn).
Proof.
  revert i. induction steps as [|steps IH]; intros i; [constructor|].
  rewrite chunkLoop_step.
  destruct (Nat.ltb_spec i (String.length nn)) as [Hin|Hout];
    constructor; auto.
  rewrite chunk_is_next_four, firstChars_length, sliceFrom_length. lia.
Qed.

Lemma format_keeps q countryCode nationalNumber :
  q " "%char = false ->
  allChars q countryCode = true -> allChars q nationalNumber = true ->
  Js.keep q (formatInternationalNumber countryCode nationalNumber)
  = Js.keep q "+" ++ countryCode ++ nationalNumber.
Proof.
  intros Hspace Hcode Hnational. unfold formatInternationalNumber.
  assert (Hsep : Js.keep q " " = EmptyString) by (simpl; now rewrite Hspace).
  case_if; rewrite !keep_append, Hsep, (keep_same q countryCode Hcode).
  - now rewrite (keep_same q nationalNumber Hnational).
  - rewrite chunks_keep by (auto; lia). reflexivity.
Qed.

(** ** What the shape-specific parsers read of their input *)

(** Both look at the digits of their input and at nothing else. *)
Lemma parseUSNumber_digits a b :
  Js.digitsOnly a = Js.digitsOnly b -> parseUSNumber a = parseUSNumber b.
Proof. unfold parseUSNumber. now intros ->. Qed.

Lemma parseInternationalNumber_digits a b :
  Js.digitsOnly a = Js.digitsOnly b ->
  parseInternationalNumber a = parseInternationalNumber b.
Proof. unfold parseInternationalNumber. now intros ->. Qed.

Lemma countryCodeLength_one_or_two digits :
  countryCodeLengthOf digits = 1 \/ countryCodeLengthOf digits = 2.
Proof.
  destruct digits as [|c digits]; simpl; auto. case_if; auto.
Qed.

(** A success of the US/Canada parser: ten digits, rendered so that
    cleaning the rendering gives the ten digits back. *)
Lemma us_success_shape s p :
  parseUSNumber s = Success p ->
  let digits := Js.digitsOnly s in
  String.length digits = 10
  /\ nationalNumber p = digits
  /\ countryCode p = "+1"
  /\ extension p = None
  /\ Js.keep cleanedChar (formatted p) = digits.
Proof.
  intros H digits. unfold parseUSNumber in H. cbv zeta in H. fold digits in H.
  destruct (String.length digits =? 10) eqn:Hlen; [|discriminate].
  apply Nat.eqb_eq in Hlen. cbn [negb] in H.
  repeat case_if; try discriminate. payload H.
  cbn [nationalNumber countryCode extension formatted].
  split; [exact Hlen|]. do 3 (split; [reflexivity|]).
  assert (Hd : allChars cleanedChar digits = true)
    by apply digits_of_digits, keep_allChars.
  rewrite !keep_append, !slice_as_firstChars.
  change (Js.keep cleanedChar "(") with EmptyString.
  change (Js.keep cleanedChar ") ") with EmptyString.
  change (Js.keep cleanedChar "-") with EmptyString.
  rewrite !keep_same
    by (repeat first [ apply firstChars_allChars
                     | apply sliceFrom_allChars ]; exact Hd).
  cbn [append Nat.sub].
  change (Js.sliceFrom 0 digits) with digits.
  change (Js.sliceFrom 6 digits) with (Js.sliceFrom (3 + 3) digits).
  rewrite <- (sliceFrom_sliceFrom 3 3), firstChars_sliceFrom.
  apply firstChars_sliceFrom.
Qed.

(** A success of the international parser: one or two digits of country
    code, at least seven digits after them, rendered so that cleaning the
    rendering gives [+] and the digits back. *)
Lemma international_success_shape s p :
  parseInternationalNumber s = Success p ->
  let digits := Js.digitsOnly s in
  let k := countryCodeLengthOf digits in
  8 <= String.length digits <= 15
  /\ countryCode p = "+" ++ Js.firstChars k digits
  /\ nationalNumber p = Js.sliceFrom k digits
  /\ 7 <= String.length (nationalNumber p)
  /\ extension p = None
  /\ Js.keep cleanedChar (formatted p) = "+" ++ digits.
Proof.
  intros H digits k. unfold parseInternationalNumber in H. cbv zeta in H.
  rewrite countryCodeLength_agrees, slice_from_start in H.
  fold digits in H. fold k in H.
  destruct ((String.length digits <? 8) || (15 <? String.length digits))
    eqn:Hrange; [discriminate|].
  apply orb_false_iff in Hrange as [Hlow Hhigh].
  apply Nat.ltb_ge in Hlow, Hhigh.
  destruct (String.length (Js.sliceFrom k digits) <? 7) eqn:Hnational;
    [discriminate|].
  apply Nat.ltb_ge in Hnational. payload H.
  cbn [nationalNumber countryCode extension formatted].
  split; [lia|]. do 2 (split; [reflexivity|]). split; [assumption|].
  split; [reflexivity|].
  assert (Hd : allChars cleanedChar digits = true)
    by apply digits_of_digits, keep_allChars.
  rewrite format_keeps;
    [ | reflexivity | now apply firstChars_allChars
      | now apply sliceFrom_allChars ].
  now rewrite firstChars_sliceFrom.
Qed.

(** ** Where a success comes from *)

(** A success on an input without [+] in front and without [x]: the
    cleaned string is ten digits, or [1] and ten digits, and the result is
    that of the US/Canada parser on the ten digits. *)
Lemma plain_success_shape depth s p :
  let cleaned := Js.keep cleanedChar s in
  Js.startsWith "+" cleaned = false ->
  Js.includes "x" (Js.toLowerCase cleaned) = false ->
  parsePhoneNumber depth s = Some (Success p) ->
  exists digits,
    (cleaned = digits \/ cleaned = String "1" digits)
    /\ String.length digits = 10
    /\ allChars Js.isDigit digits = true
    /\ parseUSNumber digits = Success p.
Proof.
  intros cleaned Hplus Hx H. destruct depth as [|depth]; [discriminate|].
  rewrite parsePhoneNumber_step in H. cbv zeta in H. fold cleaned in H.
  rewrite Hplus, Hx in H.
  assert (Hten : forall t,
             String.length t = 10 -> parseUSNumber t = Success p ->
             allChars Js.isDigit t = true).
  { intros t Ht Hp. apply us_success_shape in Hp as (Hd & _).
    cbv zeta in Hd. rewrite <- Ht in Hd.
    apply keep_length_same in Hd. rewrite <- Hd. apply keep_allChars. }
  destruct (Js.isEmpty cleaned || _); [discriminate|].
  destruct (15 <? _); [discriminate|].
  destruct (String.length cleaned =? 10) eqn:Hlen.
  { apply Nat.eqb_eq in Hlen. apply returned in H.
    exists cleaned. auto. }
  destruct (String.length cleaned =? 11) eqn:Hlen'; [|discriminate].
  destruct (Js.startsWith "1" cleaned) eqn:Hone; [|discriminate].
  apply Nat.eqb_eq in Hlen'. apply returned in H.
  destruct cleaned as [|c rest]; [discriminate|].
  simpl in Hone. apply Ascii.eqb_eq in Hone. subst c.
  simpl in Hlen', H. exists rest.
  assert (String.length rest = 10) by lia. auto.
Qed.

(** The three ways to a success.  On the extension path the main number is
    ten digits, or [1] and ten digits, which leaves room for an extension
    of four digits at most in a cleaned string of fifteen characters. *)
Lemma success_shape depth input p :
  parsePhoneNumber depth input = Some (Success p) ->
  let cleaned := Js.keep cleanedChar input in
  7 <= String.length cleaned <= 15
  /\ ((Js.startsWith "+" cleaned = true
       /\ parseInternationalNumber cleaned = Success p)
      \/ (Js.startsWith "+" cleaned = false
          /\ Js.includes "x" (Js.toLowerCase cleaned) = false
          /\ exists digits,
              (cleaned = digits \/ cleaned = String "1" digits)
              /\ String.length digits = 10
              /\ allChars Js.isDigit digits = true
              /\ parseUSNumber digits = Success p)
      \/ (Js.startsWith "+" cleaned = false
          /\ Js.includes "x" (Js.toLowerCase cleaned) = true
          /\ exists rest digits main,
              afterFirst "x" (Js.toLowerCase cleaned) = Some rest
              /\ (beforeFirst "x" (Js.toLowerCase cleaned) = digits
                  \/ beforeFirst "x" (Js.toLowerCase cleaned)
                     = String "1" digits)
              /\ String.length digits = 10
              /\ allChars Js.isDigit digits = true
              /\ parseUSNumber digits = Success main
              /\ 1 <= String.length (Js.digitsOnly (beforeFirst "x" rest)) <= 4
              /\ Success p
                 = attachExtension (Js.digitsOnly (beforeFirst "x" rest))
                     (Success main))).
Proof.
  intros H cleaned. destruct depth as [|depth]; [discriminate|].
  rewrite parsePhoneNumber_step in H. cbv zeta in H. fold cleaned in H.
  destruct (Js.isEmpty cleaned || (String.length cleaned <? 7)) eqn:Hshort;
    [discriminate|].
  destruct (15 <? String.length cleaned) eqn:Hlong; [discriminate|].
  apply orb_false_iff in Hshort as [_ Hshort].
  apply Nat.ltb_ge in Hshort, Hlong. split; [lia|].
  destruct (Js.startsWith "+" cleaned) eqn:Hplus.
  { left. apply returned in H. auto. }
  destruct (Js.includes "x" (Js.toLowerCase cleaned)) eqn:Hx.
  2:{ right; left. do 2 (split; [reflexivity|]).
      apply (plain_success_shape (S depth) input); fold cleaned; auto.
      rewrite parsePhoneNumber_step. cbv zeta. fold cleaned.
      rewrite Hplus, Hx.
      replace (Js.isEmpty cleaned || (String.length cleaned <? 7))
        with false
        by (symmetry; rewrite isEmpty_length; apply orb_false_iff; split;
            [apply Nat.eqb_neq | apply Nat.ltb_ge]; lia).
      replace (15 <? String.length cleaned) with false
        by (symmetry; apply Nat.ltb_ge; lia).
      exact H. }
  right; right. do 2 (split; [reflexivity|]).
  rewrite parseNumberWithExtension_pieces in H. cbv zeta in H.
  destruct (afterFirst "x" (Js.toLowerCase cleaned)) as [rest|] eqn:Hrest;
    [|discriminate].
  destruct (Js.isEmpty _ || Js.isEmpty _); [discriminate|].
  destruct ((String.length _ <? 7) || _); [discriminate|].
  destruct ((String.length (Js.digitsOnly (beforeFirst "x" rest)) =? 0)
            || (5 <? String.length (Js.digitsOnly (beforeFirst "x" rest))))
    eqn:Hext; [discriminate|].
  apply orb_false_iff in Hext as [Hzero Hfive].
  apply Nat.eqb_neq in Hzero.
  destruct (parsePhoneNumber depth _) as [[main|error]|] eqn:Hmain;
    try discriminate.
  destruct (main_number_plain input Hplus) as [Hplus' Hx'].
  fold cleaned in Hplus', Hx'.
  destruct (plain_success_shape depth _ main Hplus' Hx' Hmain)
    as (digits & Hshape & Hlen & Hdigits & Hus).
  unfold cleaned in Hshape. rewrite (numberPart_cleaned input) in Hshape.
  fold cleaned in Hshape.
  exists rest, digits, main. do 5 (split; [assumption || reflexivity|]).
  split; [|now apply returned in H].
  split; [lia|].
  pose proof (beforeFirst_afterFirst_length _ _ _ Hrest) as Hcut.
  rewrite toLowerCase_length in Hcut.
  pose proof (digitsOnly_length (beforeFirst "x" rest)).
  pose proof (beforeFirst_length "x" rest).
  assert (10 <= String.length (beforeFirst "x" (Js.toLowerCase cleaned)))
    by (destruct Hshape as [-> | ->]; simpl; lia).
  lia.
Qed.

(** ** Parsing a rendering *)

Lemma us_round_trip depth digits p :
  String.length digits = 10 ->
  allChars Js.isDigit digits = true ->
  parseUSNumber digits = Success p ->
  Js.keep cleanedChar (formatted p) = digits
  /\ parsePhoneNumber (S depth) (formatted p) = Some (Success p).
Proof.
  intros Hlen Hdigits Hus.
  pose proof (us_success_shape _ _ Hus) as (_ & _ & _ & _ & Hclean).
  cbv zeta in Hclean. rewrite (digits_digitsOnly _ Hdigits) in Hclean.
  split; [assumption|].
  rewrite route_ten; rewrite Hclean; auto using digits_no_plus.
  - now rewrite Hus.
  - rewrite digits_lower by assumption. now apply digits_no_x.
Qed.

Lemma startsWith_includes c s :
  Js.startsWith c s = true -> Js.includes c s = true.
Proof. destruct s as [|d s]; simpl; [discriminate|]. now intros ->. Qed.

Lemma international_round_trip depth cleaned p :
  String.length cleaned <= 15 ->
  Js.startsWith "+" cleaned = true ->
  parseInternationalNumber cleaned = Success p ->
  parsePhoneNumber (S depth) (formatted p) = Some (Success p).
Proof.
  intros Hlen Hplus Hp.
  pose proof (international_success_shape _ _ Hp)
    as (Hrange & _ & _ & _ & _ & Hclean).
  cbv zeta in Hrange, Hclean.
  assert (Hfewer : String.length (Js.digitsOnly cleaned)
                   < String.length cleaned).
  { apply keep_shorter with (c := "+"%char);
      [now apply startsWith_includes | reflexivity]. }
  rewrite route_international; rewrite Hclean.
  - rewrite <- Hp. f_equal. apply parseInternationalNumber_digits.
    unfold Js.digitsOnly at 1. simpl. apply keep_idempotent.
  - simpl. lia.
  - reflexivity.
Qed.

Lemma extension_round_trip depth digits extension main :
  String.length digits = 10 ->
  allChars Js.isDigit digits = true ->
  parseUSNumber digits = Success main ->
  allChars Js.isDigit extension = true ->
  1 <= String.length extension <= 4 ->
  forall p,
    Success p = attachExtension extension (Success main) ->
    parsePhoneNumber (S (S depth)) (formatted p) = Some (Success p).
Proof.
  intros Hlen Hdigits Hus Hext Hextlen p Hp.
  destruct (us_round_trip 0 digits main Hlen Hdigits Hus)
    as [Hclean Hmain].
  assert (Hpayload : p = {| countryCode := countryCode main;
                            nationalNumber := nationalNumber main;
                            extension := Some extension;
                            formatted :=
                              formatted main ++ " ext. " ++ extension |})
    by (unfold attachExtension in Hp; congruence).
  assert (Hcleaned : Js.keep cleanedChar (formatted p)
                     = digits ++ String "x" extension).
  { rewrite Hpayload. cbn [formatted].
    rewrite !keep_append, Hclean.
    change (Js.keep cleanedChar " ext. ") with "x".
    rewrite (keep_same cleanedChar extension)
      by now apply digits_of_digits.
    reflexivity. }
  assert (Hlower : Js.toLowerCase (digits ++ String "x" extension)
                   = digits ++ String "x" extension).
  { rewrite toLowerCase_append. simpl.
    now rewrite !digits_lower by assumption. }
  destruct (beforeFirst_append "x" digits extension
              (digits_no_x _ Hdigits)) as [Hbefore Hafter].
  destruct (beforeFirst_absent "x" extension (digits_no_x _ Hext))
    as [Hwhole _].
  rewrite route_extension; rewrite Hcleaned.
  - rewrite parseNumberWithExtension_pieces. cbv zeta.
    rewrite Hlower, Hafter, Hbefore, Hwhole.
    rewrite (digits_digitsOnly _ Hdigits), (digits_digitsOnly _ Hext).
    rewrite Hlen.
    replace (Js.isEmpty extension) with false
      by (destruct extension; simpl in *; [lia | reflexivity]).
    replace (Js.isEmpty digits) with false
      by (destruct digits; simpl in *; [lia | reflexivity]).
    change ((10 <? 7) || (15 <? 10)) with false. cbn [orb].
    replace ((String.length extension =? 0)
             || (5 <? String.length extension)) with false
      by (symmetry; apply orb_false_iff; split;
          [apply Nat.eqb_neq | apply Nat.ltb_ge]; lia).
    rewrite plain_depth
      by (rewrite (digits_cleaned _ Hdigits), digits_lower by assumption;
          now apply digits_no_x).
    rewrite (ten_digits_route 0 digits Hdigits Hlen), Hus.
    now rewrite Hp.
  - rewrite append_length. simpl. lia.
  - destruct digits as [|c rest]; [discriminate|]. simpl in *.
    apply andb_true_iff in Hdigits as [Hc _]. now apply digit_not_plus.
  - rewrite Hlower. apply afterFirst_includes. eauto.
Qed.

(** ** Guards and routing *)

(** X1: An input whose cleaned string has more than fifteen characters is
    rejected with "Phone number cannot exceed 15 digits"; so is every input
    with more than fifteen digits. *)
Theorem long_input_rejected (depth : nat) (input : string) :
  15 < String.length (Js.keep cleanedChar input)
  \/ 15 < String.length (Js.digitsOnly input) ->
  parsePhoneNumber (S depth) input =
  Some (Failure "Phone number cannot exceed 15 digits").
Proof.
  intros H.
  assert (Hlong : 15 < String.length (Js.keep cleanedChar input)).
  { destruct H as [H|H]; [assumption|].
    rewrite <- digitsOnly_cleaned in H.
    pose proof (digitsOnly_length (Js.keep cleanedChar input)). lia. }
  rewrite parsePhoneNumber_step. cbv zeta. rewrite isEmpty_length.
  replace (String.length (Js.keep cleanedChar input) =? 0) with false
    by (symmetry; apply Nat.eqb_neq; lia).
  replace (String.length (Js.keep cleanedChar input) <? 7) with false
    by (symmetry; apply Nat.ltb_ge; lia).
  apply Nat.ltb_lt in Hlong. now rewrite Hlong.
Qed.

Lemma long_input_rejected_witness :
  parsePhoneNumber 1 "+1 (202) 555-0147 x12345" =
  Some (Failure "Phone number cannot exceed 15 digits")
  /\ parsePhoneNumber 1 "1234 5678 9012 3456" =
     Some (Failure "Phone number cannot exceed 15 digits").
Proof.
  split.
  - apply (long_input_rejected 0). left. vm_compute. lia.
  - apply (long_input_rejected 0). right. vm_compute. lia.
Defined.

(** X2: Parsing sees the cleaned string only: an input and its cleaned string
    have the same result, and so have two inputs with the same cleaned
    string. *)
Theorem punctuation_is_ignored (depth : nat) (input other : string) :
  parsePhoneNumber depth (Js.keep cleanedChar input)
  = parsePhoneNumber depth input
  /\ (Js.keep cleanedChar input = Js.keep cleanedChar other ->
      parsePhoneNumber depth input = parsePhoneNumber depth other).
Proof.
  destruct depth as [|depth]; [split; reflexivity|].
  rewrite !parsePhoneNumber_step. cbv zeta. rewrite keep_idempotent.
  split; [reflexivity | now intros ->].
Qed.

Lemma punctuation_is_ignored_witness :
  parsePhoneNumber 2 "(202) 555-0147, ext. 89"
  = parsePhoneNumber 2 "202.555.0147 x 89".
Proof.
  apply (proj2 (punctuation_is_ignored 2 "(202) 555-0147, ext. 89"
                  "202.555.0147 x 89")).
  vm_compute. reflexivity.
Defined.

(** X3: The case of the letters of the input does not matter: the lower-cased
    input has the same result. *)
Theorem letter_case_is_ignored (depth : nat) (input : string) :
  parsePhoneNumber depth (Js.toLowerCase input) = parsePhoneNumber depth input.
Proof.
  destruct depth as [|depth]; [reflexivity|].
  rewrite !parsePhoneNumber_step. cbv zeta.
  rewrite toLowerCase_keep_cleaned.
  set (cleaned := Js.keep cleanedChar input).
  rewrite !isEmpty_length, toLowerCase_length, toLowerCase_startsWith_plus,
    toLowerCase_idempotent.
  rewrite (parseInternationalNumber_digits _ cleaned)
    by apply toLowerCase_digitsOnly.
  rewrite (parseUSNumber_digits (Js.toLowerCase cleaned) cleaned)
    by apply toLowerCase_digitsOnly.
  rewrite toLowerCase_sliceFrom.
  rewrite (parseUSNumber_digits (Js.toLowerCase (Js.sliceFrom 1 cleaned))
             (Js.sliceFrom 1 cleaned))
    by apply toLowerCase_digitsOnly.
  replace (Js.startsWith "1" (Js.toLowerCase cleaned))
    with (Js.startsWith "1" cleaned)
    by (destruct cleaned; simpl; auto using eq_sym, lower_is_one).
  replace (parseNumberWithExtension (parsePhoneNumber depth)
             (Js.toLowerCase cleaned))
    with (parseNumberWithExtension (parsePhoneNumber depth) cleaned)
    by (unfold parseNumberWithExtension; now rewrite toLowerCase_idempotent).
  reflexivity.
Qed.

(** X4: A string of 7 to 15 digits that is neither ten digits long nor eleven
    digits long with a leading [1] is rejected with "Unable to parse phone
    number format". *)
Theorem digit_string_unparsed (depth : nat) (s : string) :
  allChars Js.isDigit s = true ->
  7 <= String.length s <= 15 ->
  String.length s <> 10 ->
  ~ (String.length s = 11 /\ Js.startsWith "1" s = true) ->
  parsePhoneNumber (S depth) s =
  Some (Failure "Unable to parse phone number format").
Proof.
  intros Hdigits Hlen Hten Heleven.
  rewrite parsePhoneNumber_step. cbv zeta.
  rewrite (digits_cleaned _ Hdigits), (digits_lower _ Hdigits),
    (digits_no_plus _ Hdigits), (digits_no_x _ Hdigits).
  destruct (length_guards_pass s Hlen) as [-> ->].
  apply Nat.eqb_neq in Hten. rewrite Hten.
  destruct (String.length s =? 11) eqn:H11; auto.
  destruct (Js.startsWith "1" s) eqn:Hone; auto.
  apply Nat.eqb_eq in H11. tauto.
Qed.

Lemma digit_string_unparsed_witness :
  parsePhoneNumber 1 "5550147" =
  Some (Failure "Unable to parse phone number format")
  /\ parsePhoneNumber 1 "442071234567" =
     Some (Failure "Unable to parse phone number format").
Proof.
  split.
  - apply (digit_string_unparsed 0 "5550147");
      [reflexivity | vm_compute; lia | discriminate
      | intros [H _]; discriminate].
  - apply (digit_string_unparsed 0 "442071234567");
      [reflexivity | vm_compute; lia | discriminate
      | intros [H _]; discriminate].
Defined.

(** ** Failures *)

Lemma us_failure s error :
  parseUSNumber s = Failure error -> In error errorMessages.
Proof.
  unfold parseUSNumber. cbv zeta. intros H.
  repeat case_if; try discriminate; injection H as <-; in_messages.
Qed.

Lemma international_failure s error :
  parseInternationalNumber s = Failure error -> In error errorMessages.
Proof.
  unfold parseInternationalNumber. cbv zeta. intros H.
  repeat case_if; try discriminate; injection H as <-; in_messages.
Qed.

(** X5: Every failure carries one of the eleven messages. *)
Theorem failure_messages (depth : nat) (input error : string) :
  parsePhoneNumber depth input = Some (Failure error) ->
  In error errorMessages.
Proof.
  revert input error. induction depth as [|depth IH]; intros input error H;
    [discriminate|].
  rewrite parsePhoneNumber_step in H. cbv zeta in H.
  destruct (Js.isEmpty _ || _); [injection H as <-; in_messages|].
  destruct (15 <? _); [injection H as <-; in_messages|].
  destruct (Js.startsWith "+" _).
  { apply returned in H. now apply international_failure in H. }
  destruct (Js.includes "x" _).
  { rewrite parseNumberWithExtension_pieces in H. cbv zeta in H.
    destruct (afterFirst _ _); [|injection H as <-; in_messages].
    destruct (Js.isEmpty _ || Js.isEmpty _);
      [injection H as <-; in_messages|].
    destruct ((String.length _ <? 7) || _);
      [injection H as <-; in_messages|].
    destruct ((String.length _ =? 0) || _);
      [injection H as <-; in_messages|].
    destruct (parsePhoneNumber depth _) as [[main|mainError]|] eqn:Hmain;
      try discriminate.
    simpl in H. apply returned in H. injection H as <-.
    now apply IH in Hmain. }
  destruct (String.length _ =? 10).
  { apply returned in H. now apply us_failure in H. }
  destruct ((String.length _ =? 11) && _).
  { apply returned in H. now apply us_failure in H. }
  injection H as <-. in_messages.
Qed.

Lemma failure_messages_witness :
  In "Invalid exchange code" errorMessages.
Proof.
  apply (failure_messages 2 "555-123-4567 x89"). reflexivity.
Defined.

(** ** Successes *)

Lemma includes_x_not_digit s :
  Js.includes "x" (Js.toLowerCase s) = true ->
  String.length (Js.digitsOnly s) < String.length s.
Proof.
  rewrite includes_x_lower. intros H. apply orb_true_iff in H as [H|H].
  - now apply keep_shorter with (c := "x"%char).
  - now apply keep_shorter with (c := "X"%char).
Qed.

(** X6: An input that parses has 8 to 14 digits. *)
Theorem success_digit_count (depth : nat) (input : string) (p : PhoneNumber) :
  parsePhoneNumber depth input = Some (Success p) ->
  8 <= String.length (Js.digitsOnly input) <= 14.
Proof.
  intros H. apply success_shape in H. cbv zeta in H.
  rewrite <- digitsOnly_cleaned.
  set (cleaned := Js.keep cleanedChar input) in *.
  destruct H as [Hlen [(Hplus & Hp) | [(_ & _ & Hus) | (_ & Hx & Hext)]]].
  - apply international_success_shape in Hp as (Hrange & _).
    cbv zeta in Hrange.
    assert (String.length (Js.digitsOnly cleaned) < String.length cleaned)
      by (apply keep_shorter with (c := "+"%char);
          [now apply startsWith_includes | reflexivity]).
    lia.
  - destruct Hus as (digits & Hshape & Hten & Hdigits & _).
    destruct Hshape as [-> | ->].
    + rewrite (digits_digitsOnly _ Hdigits). lia.
    + unfold Js.digitsOnly. simpl. fold (Js.digitsOnly digits).
      rewrite (digits_digitsOnly _ Hdigits). simpl. lia.
  - apply includes_x_not_digit in Hx.
    destruct Hext as (rest & digits & main & _ & Hshape & Hten & Hdigits & _).
    pose proof (keep_beforeFirst_length Js.isDigit "x"
                  (Js.toLowerCase cleaned)) as Hmain.
    fold (Js.digitsOnly (Js.toLowerCase cleaned)) in Hmain.
    rewrite toLowerCase_digitsOnly in Hmain.
    assert (10 <= String.length
                    (Js.keep Js.isDigit
                       (beforeFirst "x" (Js.toLowerCase cleaned)))).
    { destruct Hshape as [-> | ->].
      - rewrite (keep_same _ _ Hdigits). lia.
      - simpl. rewrite (keep_same _ _ Hdigits). simpl. lia. }
    lia.
Qed.

Lemma success_digit_count_witness :
  8 <= String.length (Js.digitsOnly "+7 495 123 45 67") <= 14.
Proof.
  eapply (success_digit_count 1 "+7 495 123 45 67"). reflexivity.
Defined.

(** X7: The country code of a success is [+] and one or two digits, and its
    national number has 7 to 13 digits. *)
Theorem success_lengths (depth : nat) (input : string) (p : PhoneNumber) :
  parsePhoneNumber depth input = Some (Success p) ->
  (exists code,
      countryCode p = "+" ++ code
      /\ allChars Js.isDigit code = true
      /\ 1 <= String.length code <= 2)
  /\ 7 <= String.length (nationalNumber p) <= 13.
Proof.
  intros H. apply success_shape in H. cbv zeta in H.
  set (cleaned := Js.keep cleanedChar input) in *.
  assert (Hus : forall digits q,
             String.length digits = 10 ->
             allChars Js.isDigit digits = true ->
             parseUSNumber digits = Success q ->
             (exists code,
                 countryCode q = "+" ++ code
                 /\ allChars Js.isDigit code = true
                 /\ 1 <= String.length code <= 2)
             /\ 7 <= String.length (nationalNumber q) <= 13).
  { intros digits q Hten Hdigits Hq.
    apply us_success_shape in Hq as (_ & -> & -> & _). cbv zeta.
    rewrite (digits_digitsOnly _ Hdigits), Hten.
    split; [exists "1"; repeat split; simpl; lia | lia]. }
  destruct H as [Hlen [(Hplus & Hp) | [(_ & _ & Hplain) | (_ & _ & Hext)]]].
  - assert (String.length (Js.digitsOnly cleaned) < String.length cleaned)
      by (apply keep_shorter with (c := "+"%char);
          [now apply startsWith_includes | reflexivity]).
    apply international_success_shape in Hp
      as (Hrange & -> & Hnational & Hseven & _).
    cbv zeta in *. split.
    + eexists. split; [reflexivity|].
      split; [apply firstChars_allChars, keep_allChars|].
      rewrite firstChars_length.
      destruct (countryCodeLength_one_or_two (Js.digitsOnly cleaned))
        as [-> | ->]; lia.
    + split; [assumption|]. rewrite Hnational, sliceFrom_length.
      destruct (countryCodeLength_one_or_two (Js.digitsOnly cleaned))
        as [-> | ->]; lia.
  - destruct Hplain as (digits & _ & Hten & Hdigits & Hq). eauto.
  - destruct Hext
      as (rest & digits & main & _ & _ & Hten & Hdigits & Hq & _ & Hp).
    unfold attachExtension in Hp. injection Hp as ->.
    cbn [countryCode nationalNumber]. eauto.
Qed.

Lemma success_lengths_witness :
  (exists code,
      "+44" = "+" ++ code
      /\ allChars Js.isDigit code = true
      /\ 1 <= String.length code <= 2)
  /\ 7 <= String.length "2071234567" <= 13.
Proof.
  apply (success_lengths 1 "+44 20 7123 4567"
           {| countryCode := "+44";
              nationalNumber := "2071234567";
              extension := None;
              formatted := "+44 2071234567" |}).
  reflexivity.
Defined.

(** X8: A success with an extension: the extension has one to four digits, the
    national number is a ten-digit number the US/Canada parser accepts, and
    the rendering is that of the national number followed by [" ext. "] and
    the extension. *)
Theorem extension_success_shape
  (depth : nat) (input : string) (p : PhoneNumber) (e : string) :
  parsePhoneNumber depth input = Some (Success p) ->
  extension p = Some e ->
  allChars Js.isDigit e = true
  /\ 1 <= String.length e <= 4
  /\ String.length (nationalNumber p) = 10
  /\ exists main,
      parseUSNumber (nationalNumber p) = Success main
      /\ extension main = None
      /\ formatted p = formatted main ++ " ext. " ++ e.
Proof.
  intros H He. apply success_shape in H. cbv zeta in H.
  destruct H as [_ [(_ & Hp) | [(_ & _ & Hplain) | (_ & _ & Hext)]]].
  - apply international_success_shape in Hp as (_ & _ & _ & _ & Hnone & _).
    congruence.
  - destruct Hplain as (digits & _ & _ & _ & Hp).
    apply us_success_shape in Hp as (_ & _ & _ & Hnone & _). congruence.
  - destruct Hext
      as (rest & digits & main & _ & _ & Hten & Hdigits & Hq & Hlen & Hp).
    pose proof (us_success_shape _ _ Hq) as (_ & Hnational & _ & Hnone & _).
    cbv zeta in Hnational. rewrite (digits_digitsOnly _ Hdigits) in Hnational.
    unfold attachExtension in Hp. injection Hp as ->.
    cbn [extension nationalNumber formatted] in *.
    apply returned in He. subst e.
    split; [apply keep_allChars|]. split; [assumption|].
    rewrite Hnational. split; [assumption|].
    exists main. auto.
Qed.

Lemma extension_success_shape_witness :
  allChars Js.isDigit "1234" = true
  /\ 1 <= String.length "1234" <= 4
  /\ String.length "2025550147" = 10
  /\ exists main,
      parseUSNumber "2025550147" = Success main
      /\ extension main = None
      /\ "(202) 555-0147 ext. 1234" = formatted main ++ " ext. " ++ "1234".
Proof.
  apply (extension_success_shape 2 "2025550147x1234"
           {| countryCode := "+1";
              nationalNumber := "2025550147";
              extension := Some "1234";
              formatted := "(202) 555-0147 ext. 1234" |});
    reflexivity.
Defined.

(** An extension of five digits passes the test on its length and still
    never comes out: with ten digits before the [x] the cleaned string is
    too long. *)
Example five_digit_extension :
  parsePhoneNumber 2 "2025550147x12345" =
  Some (Failure "Phone number cannot exceed 15 digits").
Proof. reflexivity. Qed.

(** ** The rendering *)

(** X9: The rendering of an international number keeps the digits and their
    order: without its non-digits it is the country code followed by the
    national number. *)
Theorem format_keeps_digits (countryCode nationalNumber : string) :
  allChars Js.isDigit countryCode = true ->
  allChars Js.isDigit nationalNumber = true ->
  Js.digitsOnly (formatInternationalNumber countryCode nationalNumber)
  = countryCode ++ nationalNumber.
Proof.
  intros Hcode Hnational. unfold Js.digitsOnly.
  now rewrite format_keeps.
Qed.

Lemma format_keeps_digits_witness :
  Js.digitsOnly (formatInternationalNumber "1" "2345678901234")
  = "1" ++ "2345678901234".
Proof. apply (format_keeps_digits "1" "2345678901234"); reflexivity. Defined.

Lemma chunkLoop_nonempty steps i nn :
  chunkLoop steps i nn <> [] -> i < String.length nn.
Proof.
  destruct steps as [|steps]; [now intros Hnil|].
  rewrite chunkLoop_step.
  destruct (Nat.ltb_spec i (String.length nn)); auto. now intros Hnil.
Qed.

Lemma chunks_concat nn steps i :
  String.length nn <= i + steps ->
  String.concat "" (chunkLoop steps i nn) = Js.sliceFrom i nn.
Proof.
  revert i. induction steps as [|steps IH]; intros i Hsteps.
  - simpl. symmetry. apply sliceFrom_beyond. lia.
  - rewrite chunkLoop_step.
    destruct (Nat.ltb_spec i (String.length nn)) as [Hin|Hout].
    + specialize (IH (i + 4) ltac:(lia)).
      rewrite chunk_is_next_four.
      rewrite <- (firstChars_sliceFrom 4 (Js.sliceFrom i nn)) at 2.
      rewrite sliceFrom_sliceFrom, <- IH.
      destruct (chunkLoop steps (i + 4) nn) as [|y ys]; simpl;
        [now rewrite append_empty | reflexivity].
    + simpl. symmetry. now apply sliceFrom_beyond.
Qed.

Lemma chunks_full nn steps i :
  Forall (fun group => String.length group = 4)
    (removelast (chunkLoop steps i nn)).
Proof.
  revert i. induction steps as [|steps IH]; intros i; [constructor|].
  rewrite chunkLoop_step.
  destruct (Nat.ltb_spec i (String.length nn)) as [Hin|Hout];
    [|constructor].
  specialize (IH (i + 4)).
  destruct (chunkLoop steps (i + 4) nn) as [|y ys] eqn:Hnext;
    [constructor|].
  change (removelast (Js.slice i (i + 4) nn :: y :: ys))
    with (Js.slice i (i + 4) nn :: removelast (y :: ys)).
  constructor; auto.
  assert (i + 4 < String.length nn)
    by (apply (chunkLoop_nonempty steps); rewrite Hnext; discriminate).
  rewrite chunk_is_next_four, firstChars_length, sliceFrom_length. lia.
Qed.

(** X10: A national number of more than ten digits is rendered in groups,
    separated by spaces, after [+], the country code and a space.  The
    groups together are the national number; each but the last has four
    digits and the last has one to four. *)
Theorem format_groups (countryCode nationalNumber : string) :
  10 < String.length nationalNumber ->
  exists groups,
    formatInternationalNumber countryCode nationalNumber
    = "+" ++ countryCode ++ " " ++ String.concat " " groups
    /\ String.concat "" groups = nationalNumber
    /\ Forall (fun group => String.length group = 4) (removelast groups)
    /\ Forall (fun group => 1 <= String.length group <= 4) groups.
Proof.
  intros Hlen.
  exists (chunkLoop (String.length nationalNumber) 0 nationalNumber).
  split; [|split; [|split]].
  - unfold formatInternationalNumber.
    replace (String.length nationalNumber <=? 10) with false; auto.
    symmetry. apply Nat.leb_gt. lia.
  - now rewrite chunks_concat.
  - apply chunks_full.
  - apply chunks_sizes.
Qed.

Lemma format_groups_witness :
  exists groups,
    formatInternationalNumber "1" "2345678901234"
    = "+" ++ "1" ++ " " ++ String.concat " " groups
    /\ String.concat "" groups = "2345678901234"
    /\ Forall (fun group => String.length group = 4) (removelast groups)
    /\ Forall (fun group => 1 <= String.length group <= 4) groups.
Proof. apply (format_groups "1" "2345678901234"). vm_compute. lia. Defined.

(** Parsing the rendering of a success gives the success again. *)
Lemma rendering_parses depth input p :
  parsePhoneNumber depth input = Some (Success p) ->
  forall depth', parsePhoneNumber (2 + depth') (formatted p) = Some (Success p).
Proof.
  intros H depth'. apply success_shape in H. cbv zeta in H.
  destruct H as [Hlen [(Hplus & Hp) | [(_ & _ & Hplain) | (_ & _ & Hext)]]].
  - apply (international_round_trip _ (Js.keep cleanedChar input));
      auto; lia.
  - destruct Hplain as (digits & _ & Hten & Hdigits & Hp).
    now apply (us_round_trip (S depth') digits).
  - destruct Hext
      as (rest & digits & main & _ & _ & Hten & Hdigits & Hq & Hext & Hp).
    apply (extension_round_trip depth' digits
             (Js.digitsOnly (beforeFirst "x" rest)) main);
      auto using keep_allChars.
Qed.

(** X11: Round trip: the rendering of a parsed number parses, and gives the
    same country code, national number, extension and rendering. *)
Theorem formatted_parses_back
  (depth depth' : nat) (input : string) (p : PhoneNumber) :
  parsePhoneNumber depth input = Some (Success p) ->
  parsePhoneNumber (2 + depth') (formatted p) = Some (Success p).
Proof. intros H. now apply (rendering_parses depth input). Qed.

Lemma formatted_parses_back_witness :
  parsePhoneNumber 2 "(202) 555-0147 ext. 89" =
  Some (Success
          {| countryCode := "+1";
             nationalNumber := "2025550147";
             extension := Some "89";
             formatted := "(202) 555-0147 ext. 89" |})
  /\ parsePhoneNumber 2 "+1 2345 6789 0123 4" =
     Some (Success
             {| countryCode := "+1";
                nationalNumber := "2345678901234";
                extension := None;
                formatted := "+1 2345 6789 0123 4" |}).
Proof.
  split.
  - apply (formatted_parses_back 2 0 "1-202-555-0147 X 89"
             {| countryCode := "+1";
                nationalNumber := "2025550147";
                extension := Some "89";
                formatted := "(202) 555-0147 ext. 89" |}).
    reflexivity.
  - apply (formatted_parses_back 1 0 "+12345678901234"
             {| countryCode := "+1";
                nationalNumber := "2345678901234";
                extension := None;
                formatted := "+1 2345 6789 0123 4" |}).
    reflexivity.
Defined.

(** ** The convenience functions *)

(** X12: [isValidPhoneNumber] answers [true] exactly when [getPhoneNumber] gives
    a phone number; the rendering of that phone number is valid in turn,
    and [getPhoneNumber] gives the same phone number for it. *)
Theorem valid_and_extracted (depth : nat) (input : string) :
  (isValidPhoneNumber depth input = Some true <->
   exists p, getPhoneNumber depth input = Some (Some p))
  /\ (isValidPhoneNumber depth input = Some false <->
      getPhoneNumber depth input = Some None)
  /\ forall p,
      getPhoneNumber depth input = Some (Some p) ->
      isValidPhoneNumber 2 (formatted p) = Some true
      /\ getPhoneNumber 2 (formatted p) = Some (Some p).
Proof.
  unfold isValidPhoneNumber, getPhoneNumber.
  destruct (parsePhoneNumber depth input) as [[q|error]|] eqn:H.
  - split; [|split].
    + split; eauto.
    + split; discriminate.
    + intros p Hp. injection Hp as <-.
      pose proof (rendering_parses depth input q H 0) as Hback.
      simpl plus in Hback. now rewrite Hback.
  - split; [|split].
    + split; [discriminate | intros [p Hp]; discriminate].
    + split; reflexivity.
    + discriminate.
  - split; [|split].
    + split; [discriminate | intros [p Hp]; discriminate].
    + split; discriminate.
    + discriminate.
Qed.

Lemma valid_and_extracted_witness :
  isValidPhoneNumber 2 "+44 2071234567" = Some true
  /\ getPhoneNumber 2 "+44 2071234567" =
     Some (Some {| countryCode := "+44";
                   nationalNumber := "2071234567";
                   extension := None;
                   formatted := "+44 2071234567" |}).
Proof.
  apply (proj2 (proj2 (valid_and_extracted 1 "+44 (20) 7123-4567"))
           {| countryCode := "+44";
              nationalNumber := "2071234567";
              extension := None;
              formatted := "+44 2071234567" |}).
  reflexivity.
Defined.

(** ** What the international path does not check *)

(** X13: The area code is tested on the US/Canada path only.  Ten digits that
    start with [0] or [1] are rejected after a leading [1], and accepted
    after a leading [+1], with country code [+1] and those ten digits as
    national number. *)
Theorem plus_one_skips_area_code (depth : nat) (s : string) :
  String.length s = 10 ->
  allChars Js.isDigit s = true ->
  Js.startsWith "0" s = true \/ Js.startsWith "1" s = true ->
  parsePhoneNumber (S depth) (String "1" s) = Some (Failure "Invalid area code")
  /\ parsePhoneNumber (S depth) ("+1" ++ s) =
     Some (Success
             {| countryCode := "+1";
                nationalNumber := s;
                extension := None;
                formatted := "+1 " ++ s |}).
Proof.
  intros Hlen Hdigits Hfirst.
  assert (Hone : allChars Js.isDigit (String "1" s) = true)
    by (simpl; exact Hdigits).
  split.
  - rewrite route_eleven; rewrite (digits_cleaned _ Hone);
      auto using digits_no_plus; [|simpl; lia|].
    + change (Js.sliceFrom 1 (String "1" s)) with s.
      unfold parseUSNumber. cbv zeta.
      rewrite (digits_digitsOnly _ Hdigits), Hlen. cbn [Nat.eqb negb].
      destruct s as [|c rest]; [discriminate|]. simpl in Hfirst.
      change (Js.startsWith "0" (Js.slice 0 3 (String c rest)))
        with (Ascii.eqb c "0").
      change (Js.startsWith "1" (Js.slice 0 3 (String c rest)))
        with (Ascii.eqb c "1").
      destruct Hfirst as [-> | ->]; [reflexivity | now rewrite orb_true_r].
    + rewrite (digits_lower _ Hone). now apply digits_no_x.
  - assert (Hclean : Js.keep cleanedChar ("+1" ++ s) = "+1" ++ s).
    { change ("+1" ++ s) with (String "+" (String "1" s)).
      apply keep_same. simpl. now apply digits_of_digits. }
    rewrite route_international; rewrite Hclean;
      [|simpl; lia | reflexivity].
    unfold parseInternationalNumber. cbv zeta.
    change (Js.digitsOnly ("+1" ++ s)) with (String "1" (Js.digitsOnly s)).
    rewrite (digits_digitsOnly _ Hdigits).
    change (String.length (String "1" s)) with (S (String.length s)).
    rewrite Hlen.
    change (Js.startsWith "1" (String "1" s)) with true. cbv iota.
    change (Js.sliceFrom 1 (String "1" s)) with s.
    change (Js.slice 0 1 (String "1" s)) with "1".
    unfold formatInternationalNumber. rewrite Hlen. reflexivity.
Qed.

Lemma plus_one_skips_area_code_witness :
  parsePhoneNumber 1 "10255501470" = Some (Failure "Invalid area code")
  /\ parsePhoneNumber 1 "+10255501470" =
     Some (Success
             {| countryCode := "+1";
                nationalNumber := "0255501470";
                extension := None;
                formatted := "+1 0255501470" |}).
Proof.
  apply (plus_one_skips_area_code 0 "0255501470");
    [reflexivity | reflexivity | now left].
Defined.

(** X14: A [+] followed by 9 to 14 digits always parses, whatever the digits
    are: the country code and the national number are the [+] and the
    digits, cut after the first or the second digit. *)
Theorem plus_and_digits_accepted (depth : nat) (digits : string) :
  allChars Js.isDigit digits = true ->
  9 <= String.length digits <= 14 ->
  exists p,
    parsePhoneNumber (S depth) ("+" ++ digits) = Some (Success p)
    /\ countryCode p ++ nationalNumber p = "+" ++ digits
    /\ extension p = None.
Proof.
  intros Hdigits Hlen.
  assert (Hclean : Js.keep cleanedChar ("+" ++ digits) = "+" ++ digits).
  { change ("+" ++ digits) with (String "+" digits).
    apply keep_same. simpl. now apply digits_of_digits. }
  assert (Hd : Js.digitsOnly ("+" ++ digits) = digits).
  { change (Js.digitsOnly ("+" ++ digits)) with (Js.digitsOnly digits).
    now apply digits_digitsOnly. }
  rewrite route_international; rewrite Hclean; [|simpl; lia | reflexivity].
  destruct (parseInternationalNumber_outcomes ("+" ++ digits)) as [Hin _].
  rewrite Hd in Hin. destruct Hin as [_ Hin]; [lia|].
  eexists. split; [|split].
  - apply Hin. rewrite sliceFrom_length.
    destruct (countryCodeLength_one_or_two digits) as [-> | ->]; lia.
  - cbn [countryCode nationalNumber]. simpl. f_equal.
    apply firstChars_sliceFrom.
  - reflexivity.
Qed.

Lemma plus_and_digits_accepted_witness :
  exists p,
    parsePhoneNumber 1 ("+" ++ "000000000") = Some (Success p)
    /\ countryCode p ++ nationalNumber p = "+" ++ "000000000"
    /\ extension p = None.
Proof.
  apply (plus_and_digits_accepted 0 "000000000");
    [reflexivity | vm_compute; lia].
Defined.
